(** * donut-utils: a shallow embedding of [main.go]

    The program is one linear pipeline (read the repository list, fetch
    metadata, select one asset per repository, ask for confirmation,
    download, register the download directory on PATH).  It is embedded
    here as state-passing functions over an explicit world:

    - Go strings are byte strings, modelled by [string];
    - a Go [(value, err)] pair is a [result];
    - the file system is a finite map from paths to nodes;
    - everything the program cannot decide itself (HTTP answers, the
      current user, the environment, injected I/O faults, the JSON decoder
      and [filepath.Join]) is a field of the environment [Env];
    - standard output is the list of the texts written, oldest first;
    - open resources (response bodies, file handles) are tracked in the
      state, and [defer] is a per-call stack of handles closed on return.

    [time.Sleep] has no counterpart: the model has no clock. *)

From Stdlib Require Import ZArith String Ascii List Bool Lia Permutation DecimalString.
From stdpp Require Import base gmap strings list.

Local Open Scope string_scope.
Local Open Scope Z_scope.
Local Open Scope list_scope.

(** ** Results of fallible calls *)

Inductive result (A : Type) : Type :=
| Ok (a : A)
| Err (e : string).
Arguments Ok {A} a.
Arguments Err {A} e.

(** ** The [strings] package

    The functions below follow the Go library on byte strings, which Go
    reads as UTF-8.  [TrimSpace] trims the white space of [unicode.IsSpace],
    one-byte and multi-byte.  [ToLower] is the library's ASCII path: bytes
    of 128 and above are left as they are.  The program only compares its
    result with the ASCII word "yes", and no character outside ASCII
    lower-cases to one of the letters y, e, s; so on that comparison the
    ASCII path and the full function agree. *)

Module strings.

Definition nl : string := String "010" EmptyString.

(** [strings.Index]: position of the first occurrence, [-1] when absent. *)
Fixpoint Index_from (s substr : string) (i : Z) : Z :=
  if String.prefix substr s then i
  else match s with
       | EmptyString => -1
       | String _ s' => Index_from s' substr (i + 1)
       end.

Definition Index (s substr : string) : Z := Index_from s substr 0.

(** [strings.Contains] is [Index(s, substr) >= 0]. *)
Definition Contains (s substr : string) : bool := 0 <=? Index s substr.

(** White space of one byte: tab, line feed, vertical tab, form feed,
    carriage return, space. *)
Definition isSpace (c : ascii) : bool :=
  match c with
  | "009"%char | "010"%char | "011"%char | "012"%char | "013"%char | " "%char => true
  | _ => false
  end.

Definition bytes2 (b1 b2 : nat) : string :=
  String (ascii_of_nat b1) (String (ascii_of_nat b2) EmptyString).

Definition bytes3 (b1 b2 b3 : nat) : string :=
  String (ascii_of_nat b1) (bytes2 b2 b3).

(** The UTF-8 encodings of the white space above U+007F: U+0085 and U+00A0
    in two bytes; U+1680, U+2000 to U+200A, U+2028, U+2029, U+202F, U+205F
    and U+3000 in three. *)
Definition spaces2 : list string :=
  [bytes2 194 133; bytes2 194 160].

Definition spaces3 : list string :=
  [bytes3 225 154 128;
   bytes3 226 128 128; bytes3 226 128 129; bytes3 226 128 130; bytes3 226 128 131;
   bytes3 226 128 132; bytes3 226 128 133; bytes3 226 128 134; bytes3 226 128 135;
   bytes3 226 128 136; bytes3 226 128 137; bytes3 226 128 138;
   bytes3 226 128 168; bytes3 226 128 169; bytes3 226 128 175;
   bytes3 226 129 159;
   bytes3 227 128 128].

Definition isSpace2 (c1 c2 : ascii) : bool :=
  existsb (String.eqb (String c1 (String c2 EmptyString))) spaces2.

Definition isSpace3 (c1 c2 c3 : ascii) : bool :=
  existsb (String.eqb (String c1 (String c2 (String c3 EmptyString)))) spaces3.

(** [strings.TrimLeftFunc(s, unicode.IsSpace)]: characters are decoded from
    the front and dropped while they are white space.  A white-space
    character is decoded exactly where one of the encodings above begins. *)
Fixpoint TrimLeftSpace (s : string) : string :=
  match s with
  | EmptyString => EmptyString
  | String c1 s1 =>
      if isSpace c1 then TrimLeftSpace s1
      else match s1 with
           | EmptyString => s
           | String c2 s2 =>
               if isSpace2 c1 c2 then TrimLeftSpace s2
               else match s2 with
                    | EmptyString => s
                    | String c3 s3 =>
                        if isSpace3 c1 c2 c3 then TrimLeftSpace s3 else s
                    end
           end
  end.

(** [strings.TrimRightFunc(s, unicode.IsSpace)]: characters are decoded from
    the end and dropped while they are white space.  The recursion comes
    back from the end of the string: the tail returns without its trailing
    white space, and the byte in hand goes too exactly when, with what the
    tail returned, it is one white-space character. *)
Fixpoint TrimRightSpace (s : string) : string :=
  match s with
  | EmptyString => EmptyString
  | String c s' =>
      match TrimRightSpace s' with
      | EmptyString => if isSpace c then EmptyString else String c EmptyString
      | String c2 EmptyString =>
          if isSpace2 c c2 then EmptyString else String c (String c2 EmptyString)
      | String c2 (String c3 EmptyString) =>
          if isSpace3 c c2 c3 then EmptyString
          else String c (String c2 (String c3 EmptyString))
      | t => String c t
      end
  end.

(** [strings.TrimSpace]. *)
Definition TrimSpace (s : string) : string := TrimRightSpace (TrimLeftSpace s).

(** [blank s]: [s] is white-space characters from its first byte to its
    last. *)
Inductive blank : string -> Prop :=
| blank_nil : blank EmptyString
| blank_1 c s : isSpace c = true -> blank s -> blank (String c s)
| blank_2 c1 c2 s :
    isSpace2 c1 c2 = true -> blank s -> blank (String c1 (String c2 s))
| blank_3 c1 c2 c3 s :
    isSpace3 c1 c2 c3 = true -> blank s ->
    blank (String c1 (String c2 (String c3 s))).

(** Is there a white-space character at the head of [s]? *)
Definition headSpace (s : string) : bool :=
  match s with
  | EmptyString => false
  | String c1 s1 =>
      isSpace c1 ||
      match s1 with
      | EmptyString => false
      | String c2 s2 =>
          isSpace2 c1 c2 ||
          match s2 with
          | EmptyString => false
          | String c3 _ => isSpace3 c1 c2 c3
          end
      end
  end.

Definition lower (c : ascii) : ascii :=
  let n := nat_of_ascii c in
  if ((65 <=? n) && (n <=? 90))%nat then ascii_of_nat (n + 32) else c.

Fixpoint ToLower (s : string) : string :=
  match s with
  | EmptyString => EmptyString
  | String c s' => String (lower c) (ToLower s')
  end.

(** [strings.Split(s, sep)] for a one-byte separator: [n] separators give
    [n + 1] pieces, the empty string gives one empty piece. *)
Fixpoint Split (s : string) (sep : ascii) : list string :=
  match s with
  | EmptyString => [EmptyString]
  | String c s' =>
      if Ascii.eqb c sep then EmptyString :: Split s' sep
      else match Split s' sep with
           | [] => [String c EmptyString]
           | piece :: rest => String c piece :: rest
           end
  end.

Fixpoint Join (l : list string) (sep : string) : string :=
  match l with
  | [] => EmptyString
  | [x] => x
  | x :: rest => x +:+ sep +:+ Join rest sep
  end.

End strings.

(** [strconv.Itoa] / the [%d] verb. *)
Definition Itoa (n : Z) : string := NilZero.string_of_int (Z.to_int n).

(** ** The [fmt] package: the text one call writes *)

Module fmt.

(** [fmt.Println] separates its operands by one space and ends the line. *)
Definition Println (operands : list string) : string :=
  strings.Join operands " " +:+ strings.nl.

End fmt.

(** ** [bufio.Reader.ReadString] on the whole of standard input

    The line up to and including the first delimiter; [io.EOF] when the
    input ends before a delimiter is seen. *)
Fixpoint ReadString (input : string) (delim : ascii) : result string :=
  match input with
  | EmptyString => Err "EOF"
  | String c rest =>
      if Ascii.eqb c delim then Ok (String c EmptyString)
      else match ReadString rest delim with
           | Ok line => Ok (String c line)
           | Err e => Err e
           end
  end.

(** ** [filepath.Base], Unix build (separator [/], no volume names) *)

Module filepath.

Definition IsPathSeparator (c : ascii) : bool := Ascii.eqb c "/"%char.

(** Strip trailing separators. *)
Fixpoint stripTrailing (path : string) : string :=
  match path with
  | EmptyString => EmptyString
  | String c p' =>
      match stripTrailing p' with
      | EmptyString => if IsPathSeparator c then EmptyString else String c EmptyString
      | t => String c t
      end
  end.

(** What follows the last separator (the whole path when it has none). *)
Fixpoint lastElement (path : string) : string :=
  match path with
  | EmptyString => EmptyString
  | String c p' =>
      if strings.Contains p' "/" then lastElement p'
      else if IsPathSeparator c then p'
      else path
  end.

Definition Base (path : string) : string :=
  if String.eqb path "" then "."
  else let path := lastElement (stripTrailing path) in
       if String.eqb path "" then "/" else path.

End filepath.

(** ** The world outside the program *)

(** A file-system node carries its permission bits. *)
Inductive Node : Type :=
| Dir (perm : Z)
| File (data : string) (perm : Z).

(** The answer to one [http.Get]: a transport error, or a response with its
    status code, the bytes its body delivers, and the error (if any) that
    reading the body ends with. *)
Inductive HttpResult : Type :=
| GetErr (e : string)
| Resp (StatusCode : Z) (body : string) (readErr : option string).

(** The file-system calls of the program, as fault-injection points. *)
Inductive FsOp : Type :=
| OpReadFile | OpMkdirAll | OpCreate | OpWrite | OpChmod | OpOpenFile.

(** A release asset, as the release JSON is decoded. *)
Record Asset : Type := mkAsset {
  asset_Name : string;
  asset_BrowserDownloadUrl : string
}.

Record Env : Type := mkEnv {
  GOOS : string;                        (* runtime.GOOS *)
  GOARCH : string;                      (* runtime.GOARCH *)
  Getenv_SHELL : string;                (* os.Getenv("SHELL") *)
  user_Current : result string;         (* user.Current(): the HomeDir; the
                                           library caches it per process *)
  Stdin : string;                       (* all of standard input *)
  http_Get : nat -> string -> HttpResult;
                                        (* answer to the n-th request *)
  Unmarshal_repoInfo : string -> result string;
                                        (* json.Unmarshal: the description *)
  Unmarshal_release : string -> result (list Asset);
                                        (* json.Unmarshal: the assets *)
  filepath_Join : string -> string -> string;
  fault : FsOp -> string -> option string;
                                        (* an I/O error forced on a path *)
  umask : Z                             (* the process's file mode mask *)
}.

(** An open resource: the body of the n-th response, or a file handle. *)
Inductive Handle : Type :=
| HBody (req : nat)
| HFile (path : string).

Global Instance Handle_eq_dec : EqDecision Handle.
Proof. solve_decision. Defined.

Record State : Type := mkState {
  stdout : list string;          (* texts written, oldest first *)
  fs : gmap string Node;
  nreq : nat;                    (* HTTP requests issued so far *)
  opened : list Handle           (* resources not yet closed *)
}.

Definition print (text : string) (st : State) : State :=
  mkState (stdout st ++ [text]) (fs st) (nreq st) (opened st).

Definition println (operands : list string) (st : State) : State :=
  print (fmt.Println operands) st.

Definition set_fs (fs' : gmap string Node) (st : State) : State :=
  mkState (stdout st) fs' (nreq st) (opened st).

Definition acquire (h : Handle) (st : State) : State :=
  mkState (stdout st) (fs st) (nreq st) (h :: opened st).

Fixpoint remove_first (h : Handle) (l : list Handle) : list Handle :=
  match l with
  | [] => []
  | x :: l' => if decide (x = h) then l' else x :: remove_first h l'
  end.

(** [Close()] on a handle. *)
Definition close (h : Handle) (st : State) : State :=
  mkState (stdout st) (fs st) (nreq st) (remove_first h (opened st)).

(** The deferred calls of a function run on its return, last one first;
    the stack is kept with the last [defer] at its head. *)
Definition run_deferred (deferred : list Handle) (st : State) : State :=
  fold_left (fun s h => close h s) deferred st.

(** ** Operating-system calls *)

Module os.

Definition ReadFile (E : Env) (fs : gmap string Node) (name : string) : result string :=
  match fault E OpReadFile name with
  | Some e => Err e
  | None =>
      match fs !! name with
      | Some (File data _) => Ok data
      | Some (Dir _) => Err ("read " +:+ name +:+ ": is a directory")
      | None => Err ("open " +:+ name +:+ ": no such file or directory")
      end
  end.

(** Only the directory itself is recorded, not its parents.  A directory
    that is made gets the requested mode less the bits of the umask. *)
Definition MkdirAll (E : Env) (fs : gmap string Node) (path : string) (perm : Z)
  : result (gmap string Node) :=
  match fault E OpMkdirAll path with
  | Some e => Err e
  | None =>
      match fs !! path with
      | Some (Dir _) => Ok fs
      | Some (File _ _) => Err ("mkdir " +:+ path +:+ ": not a directory")
      | None => Ok (<[path := Dir (Z.land perm (Z.lnot (umask E)))]> fs)
      end
  end.

(** [os.Create]: truncate an existing file, which keeps its mode, or make
    a new one with mode 0666 less the bits of the umask.  That the parent
    directory exists is not checked here; such an error is one of those the
    fault oracle stands for. *)
Definition Create (E : Env) (fs : gmap string Node) (name : string)
  : result (gmap string Node) :=
  match fault E OpCreate name with
  | Some e => Err e
  | None =>
      match fs !! name with
      | Some (Dir _) => Err ("open " +:+ name +:+ ": is a directory")
      | Some (File _ perm) => Ok (<[name := File "" perm]> fs)
      | None => Ok (<[name := File "" (Z.land 438 (Z.lnot (umask E)))]> fs)
      end
  end.

(** Writing through a handle positioned at the end of the file. *)
Definition Write (E : Env) (fs : gmap string Node) (name : string) (data : string)
  : result (gmap string Node) :=
  match fault E OpWrite name with
  | Some e => Err e
  | None =>
      match fs !! name with
      | Some (File old perm) => Ok (<[name := File (old +:+ data) perm]> fs)
      | _ => Err ("write " +:+ name +:+ ": bad file descriptor")
      end
  end.

Definition Chmod (E : Env) (fs : gmap string Node) (name : string) (perm : Z)
  : result (gmap string Node) :=
  match fault E OpChmod name with
  | Some e => Err e
  | None =>
      match fs !! name with
      | Some (File data _) => Ok (<[name := File data perm]> fs)
      | Some (Dir _) => Ok (<[name := Dir perm]> fs)
      | None => Err ("chmod " +:+ name +:+ ": no such file or directory")
      end
  end.

(** [os.OpenFile(name, O_APPEND|O_WRONLY, 0644)]: no [O_CREATE], so the
    file has to exist. *)
Definition OpenFile_append (E : Env) (fs : gmap string Node) (name : string)
  : result unit :=
  match fault E OpOpenFile name with
  | Some e => Err e
  | None =>
      match fs !! name with
      | Some (File _ _) => Ok tt
      | Some (Dir _) => Err ("open " +:+ name +:+ ": is a directory")
      | None => Err ("open " +:+ name +:+ ": no such file or directory")
      end
  end.

End os.

(** [http.Get]: the request is counted; a response, whatever its status,
    comes with an open body. *)
Definition Get (E : Env) (url : string) (st : State) : HttpResult * State :=
  let n := nreq st in
  let st' := mkState (stdout st) (fs st) (S n) (opened st) in
  match http_Get E n url with
  | GetErr e => (GetErr e, st')
  | Resp code body rerr => (Resp code body rerr, acquire (HBody n) st')
  end.

(** [io.Copy(out, resp.Body)]: the bytes the body delivers are written to
    the file; the error is the write error or else the body's read error. *)
Definition io_Copy (E : Env) (fs : gmap string Node) (name : string)
    (body : string) (readErr : option string)
  : gmap string Node * option string :=
  match os.Write E fs name body with
  | Err e => (fs, Some e)
  | Ok fs' => (fs', readErr)
  end.

(** ** The program *)

Import strings.

Definition BaseURL : string := "https://api.github.com/repos/".
Definition ReposList : string := "repolist.txt".
Definition DownloadDir : string := ".donut-utils".

Record appInfo : Type := mk_appInfo {
  Name : string;
  Description : string;
  DownloadURL : string
}.

(** What the loop over the repositories carries from one iteration to the
    next: the list built so far, the calls [main] has deferred, the world. *)
Record Loop : Type := mkLoop {
  availableApps : list appInfo;
  deferred : list Handle;
  world : State
}.

(** The platform test of line 128. *)
Definition matches_platform (E : Env) (asset : Asset) : bool :=
  Contains (asset_Name asset) (GOOS E) && Contains (asset_Name asset) (GOARCH E).

Definition app_of (description : string) (asset : Asset) : appInfo :=
  mk_appInfo (asset_Name asset) description (asset_BrowserDownloadUrl asset).

(** Lines 127-136: the loop over the assets of one release, with its
    [break]. *)
Fixpoint scan_assets (E : Env) (description : string) (assets : list Asset)
    (apps : list appInfo) : list appInfo :=
  match assets with
  | [] => apps
  | asset :: rest =>
      if matches_platform E asset
      then apps ++ [app_of description asset]
      else scan_assets E description rest apps
  end.

(** A [continue] after a message: the list and the deferred calls stay. *)
Definition skip (operands : list string) (L : Loop) (w : State) : Loop :=
  mkLoop (availableApps L) (deferred L) (println operands w).

(** Lines 64-137: one iteration of the loop over the repositories. *)
Definition fetch_repo (E : Env) (line : string) (L : Loop) : Loop :=
  let repo := TrimSpace line in
  if String.eqb repo "" then L
  else
    let h1 := HBody (nreq (world L)) in
    match Get E (BaseURL +:+ repo) (world L) with
    | (GetErr e, w) => skip ["Failed to get repository info:"; e] L w
    | (Resp code body rerr, w) =>
      if negb (code =? 200)
      then skip ["Received non-200 response code when getting repository info:";
                 Itoa code] L w
      else
        let L := mkLoop (availableApps L) (h1 :: deferred L) w in
        match rerr with
        | Some e => skip ["Failed to read repository info response body:"; e] L w
        | None =>
          match Unmarshal_repoInfo E body with
          | Err e => skip ["Failed to unmarshal repository info:"; e] L w
          | Ok description =>
            let h2 := HBody (nreq w) in
            match Get E (BaseURL +:+ repo +:+ "/releases/latest") w with
            | (GetErr e, w) => skip ["Failed to get latest release:"; e] L w
            | (Resp code body rerr, w) =>
              if negb (code =? 200)
              then skip ["Received non-200 response code:"; Itoa code] L w
              else
                let L := mkLoop (availableApps L) (h2 :: deferred L) w in
                match rerr with
                | Some e => skip ["Failed to read response body:"; e] L w
                | None =>
                  match Unmarshal_release E body with
                  | Err e => skip ["Failed to unmarshal release info:"; e] L w
                  | Ok assets =>
                      mkLoop (scan_assets E description assets (availableApps L))
                             (deferred L) w
                  end
                end
            end
          end
        end
    end.

Definition fetch_all (E : Env) (repos : list string) (L : Loop) : Loop :=
  fold_left (fun L repo => fetch_repo E repo L) repos L.

(** Lines 170-206. *)
Definition downloadAndStore (E : Env) (url downloadPath : string) (st : State) : State :=
  let body_h := HBody (nreq st) in
  match Get E url st with
  | (GetErr e, st) => println ["Failed to download file:"; e] st
  | (Resp _ body rerr, st) =>
    (* defer resp.Body.Close() *)
    let filename := filepath.Base url in
    let index := Index filename "-v" in
    if index =? -1
    then run_deferred [body_h]
           (println ["Invalid filename format, cannot find version:"; filename] st)
    else
      let appName := substring 0 (Z.to_nat index) filename in
      let target := filepath_Join E downloadPath appName in
      match os.Create E (fs st) target with
      | Err e => run_deferred [body_h] (println ["Failed to create file:"; e] st)
      | Ok fs1 =>
        let st := acquire (HFile target) (set_fs fs1 st) in
        (* defer out.Close() *)
        let on_return := run_deferred [HFile target; body_h] in
        match io_Copy E (fs st) target body rerr with
        | (fs2, Some e) =>
            on_return (println ["Failed to write file:"; e] (set_fs fs2 st))
        | (fs2, None) =>
            let st := set_fs fs2 st in
            match os.Chmod E (fs st) target 493 with
            | Err e => on_return (println ["Failed to change file permissions:"; e] st)
            | Ok fs3 =>
                on_return (println ["File downloaded and saved to:"; target]
                             (set_fs fs3 st))
            end
        end
      end
  end.

(** The line [addToPath] appends to the shell profile. *)
Definition export_line (dir : string) : string :=
  nl +:+ "export PATH=$PATH:" +:+ dir.

(** Lines 209-220: the profile file the value of [SHELL] selects, if any. *)
Definition supported_shellrc (E : Env) : option string :=
  let shell := Getenv_SHELL E in
  if Contains shell "bash" then Some ".bashrc"
  else if Contains shell "zsh" then Some ".zshrc"
  else None.

(** Lines 208-246. *)
Definition addToPath (E : Env) (dir : string) (st : State) : State :=
  match supported_shellrc E with
  | None =>
      println [dir]
        (println ["Unsupported shell. Please add the following directory to your PATH manually:"] st)
  | Some shellrc =>
    match user_Current E with
    | Err e => println ["Failed to get current user:"; e] st
    | Ok HomeDir =>
      let shellrcPath := filepath_Join E HomeDir shellrc in
      match os.OpenFile_append E (fs st) shellrcPath with
      | Err e => println ["Failed to open shellrc file:"; e] st
      | Ok _ =>
        let st := acquire (HFile shellrcPath) st in
        (* defer file.Close() *)
        let on_return := run_deferred [HFile shellrcPath] in
        match os.Write E (fs st) shellrcPath (export_line dir) with
        | Err e => on_return (println ["Failed to write to shellrc file:"; e] st)
        | Ok fs' =>
            let st := set_fs fs' st in
            let st := println ["Successfully added to PATH in"; shellrc] st in
            let st := println [nl +:+ "To update your current session, please run the following command:"] st in
            on_return (print (nl +:+ "source ~/" +:+ shellrc +:+ nl +:+ nl) st)
        end
      end
    end
  end.

(** The banner of lines 24-33 and the introduction of line 34. *)
Definition banner : string :=
  Join [ "     _                   _   "
       ; "  __| | ___  _ __  _   _| |_ "
       ; " / _' |/ _ \| '_ \| | | | __|"
       ; "| (_| | (_) | | | | |_| | |_ "
       ; " \__,_|_____|_| |_|\__,_|\__|"
       ; " _   _| |_(_| |___           "
       ; "| | | | __| | / __|          "
       ; "| |_| | |_| | \__ \          "
       ; " \__,_|\__|_|_|___/          "
       ; "                             " ] nl.

Definition introduction : string :=
  "donut-utils is a collection of cli utilities focusing on convenience and human readable output."
  +:+ nl +:+ nl +:+
  "The applications will be downloaded from Github, and placed in ~/.donut-utils and then ~/.donut-utils will be added to your path."
  +:+ nl +:+ nl +:+ "for more information, visit the url below:"
  +:+ nl +:+ "https://github.com/donuts-are-good/donut-utils"
  +:+ nl +:+ nl +:+ "To abort this process, press CTRL C now.".

(** Lines 140-142: the numbered list, counted from 1. *)
Fixpoint list_apps (i : Z) (apps : list appInfo) (st : State) : State :=
  match apps with
  | [] => st
  | app :: rest =>
      list_apps (i + 1) rest
        (print (nl +:+ Itoa (i + 1) +:+ ". Name: " +:+ Name app +:+ nl
                +:+ "Description: " +:+ Description app +:+ nl) st)
  end.

(** Lines 139-143: the list of what was found, and the question. *)
Definition show_available (apps : list appInfo) (st : State) : State :=
  let st := println [nl +:+ nl +:+ nl +:+
                     "The following applications are available for your system:"] st in
  let st := list_apps 0 apps st in
  println [nl +:+ nl +:+ "Do you want to download these applications? (yes/no)"] st.

(** Lines 154-156. *)
Definition download_all (E : Env) (apps : list appInfo) (downloadPath : string)
    (st : State) : State :=
  fold_left (fun st app => downloadAndStore E (DownloadURL app) downloadPath st) apps st.

(** Lines 152-157: the confirmation gate. *)
Definition confirmed (response : string) : bool :=
  String.eqb (ToLower (TrimSpace response)) "yes".

(** Lines 158-168. *)
Definition register_path (E : Env) (downloadPath : string) (st : State) : State :=
  if String.eqb (GOOS E) "windows" then
    let st := println ["Please add the following directory to your PATH manually in Windows:"] st in
    let st := println [downloadPath] st in
    println ["You may need to restart your terminal or system for changes to take effect."] st
  else
    let st := addToPath E downloadPath st in
    let st := println ["You will need to restart your terminal or source your shell profile for the changes to take effect."] st in
    let st := println ["If you're using bash or zsh, you can do this by running one of the following commands:"] st in
    let st := println [nl +:+ "For bash: source ~/.bashrc"] st in
    println ["For zsh:  source ~/.zshrc"] st.

(** The [return] statement [main] leaves through. *)
Inductive Exit : Type :=
| ReturnReposList      (* line 39 *)
| ReturnCurrentUser    (* line 45 *)
| ReturnMkdir          (* line 52 *)
| ReturnUserInput      (* line 149 *)
| ReturnEnd.           (* line 169 *)

(** Lines 23-169. *)
Definition main (E : Env) (st : State) : Exit * State :=
  let st := println [banner] st in
  let st := println [introduction] st in
  match os.ReadFile E (fs st) ReposList with
  | Err e => (ReturnReposList, println ["Failed to read repos list file:"; e] st)
  | Ok data =>
    match user_Current E with
    | Err e => (ReturnCurrentUser, println ["Failed to get current user:"; e] st)
    | Ok HomeDir =>
      let downloadPath := filepath_Join E HomeDir DownloadDir in
      match os.MkdirAll E (fs st) downloadPath 493 with
      | Err e => (ReturnMkdir, println ["Failed to create download directory:"; e] st)
      | Ok fs' =>
        let st := set_fs fs' st in
        let repos := Split data "010" in
        let L := fetch_all E repos (mkLoop [] [] st) in
        let apps := availableApps L in
        let st := world L in
        let st := show_available apps st in
        match ReadString (Stdin E) "010" with
        | Err e =>
            (ReturnUserInput,
             run_deferred (deferred L) (println ["Failed to read user input:"; e] st))
        | Ok response =>
            let st := if confirmed response
                      then download_all E apps downloadPath st else st in
            let st := register_path E downloadPath st in
            (ReturnEnd, run_deferred (deferred L) st)
        end
      end
    end
  end.

(** Names for the states [main] passes through: after the banner, the
    introduction and [os.MkdirAll]; after the loop over the repositories;
    after the question has been printed. *)
Definition started (st : State) (fs' : gmap string Node) : State :=
  set_fs fs' (println [introduction] (println [banner] st)).

Definition fetched (E : Env) (data : string) (st : State) : Loop :=
  fetch_all E (Split data "010") (mkLoop [] [] st).

Definition asked (L : Loop) : State :=
  show_available (availableApps L) (world L).

(** [occurs_at s substr p]: [substr] occurs in [s] right after the prefix [p]. *)
Definition occurs_at (s substr p : string) : Prop :=
  exists q, s = p +:+ substr +:+ q.

(** A line of the list file that survives the test of lines 65-68. *)
Definition nonblank (line : string) : bool :=
  negb (String.eqb (TrimSpace line) "").

(** An entry of the list that fits the platform the program runs on. *)
Definition app_matches (E : Env) (app : appInfo) : Prop :=
  Contains (Name app) (GOOS E) = true /\ Contains (Name app) (GOARCH E) = true.

(** [keeps_paths fs fs']: no path of [fs] is missing from [fs']. *)
Definition keeps_paths (fs fs' : gmap string Node) : Prop :=
  forall path, is_Some (fs !! path) -> is_Some (fs' !! path).

(** An API that never answers with a status other than 200 (it may still
    fail to answer at all). *)
Definition always_200 (E : Env) : Prop :=
  forall n url code body rerr, http_Get E n url = Resp code body rerr -> code = 200.

(** ** The failures of the metadata requests, as the specification lists them

    [fetch_failure E n repo operands]: with [n] requests issued before,
    fetching the metadata of [repo] fails, and [operands] is what the
    program is to print for it.  Either request can fail by a transport
    error, a status other than 200, an error while reading the body, or a
    body that does not decode. *)

Definition info_ok (E : Env) (n : nat) (repo description : string) : Prop :=
  exists body, http_Get E n (BaseURL +:+ repo) = Resp 200 body None
               /\ Unmarshal_repoInfo E body = Ok description.

Inductive fetch_failure (E : Env) (n : nat) (repo : string) : list string -> Prop :=
| info_transport e :
    http_Get E n (BaseURL +:+ repo) = GetErr e ->
    fetch_failure E n repo ["Failed to get repository info:"; e]
| info_status code body rerr :
    http_Get E n (BaseURL +:+ repo) = Resp code body rerr -> code <> 200 ->
    fetch_failure E n repo
      ["Received non-200 response code when getting repository info:"; Itoa code]
| info_read body e :
    http_Get E n (BaseURL +:+ repo) = Resp 200 body (Some e) ->
    fetch_failure E n repo ["Failed to read repository info response body:"; e]
| info_decode body e :
    http_Get E n (BaseURL +:+ repo) = Resp 200 body None ->
    Unmarshal_repoInfo E body = Err e ->
    fetch_failure E n repo ["Failed to unmarshal repository info:"; e]
| release_transport description e :
    info_ok E n repo description ->
    http_Get E (S n) (BaseURL +:+ repo +:+ "/releases/latest") = GetErr e ->
    fetch_failure E n repo ["Failed to get latest release:"; e]
| release_status description code body rerr :
    info_ok E n repo description ->
    http_Get E (S n) (BaseURL +:+ repo +:+ "/releases/latest") = Resp code body rerr ->
    code <> 200 ->
    fetch_failure E n repo ["Received non-200 response code:"; Itoa code]
| release_read description body e :
    info_ok E n repo description ->
    http_Get E (S n) (BaseURL +:+ repo +:+ "/releases/latest") = Resp 200 body (Some e) ->
    fetch_failure E n repo ["Failed to read response body:"; e]
| release_decode description body e :
    info_ok E n repo description ->
    http_Get E (S n) (BaseURL +:+ repo +:+ "/releases/latest") = Resp 200 body None ->
    Unmarshal_release E body = Err e ->
    fetch_failure E n repo ["Failed to unmarshal release info:"; e].

(** ** Concrete worlds for the examples

    The decoders of these worlds stand in for [json.Unmarshal]: a body that
    starts with [!] is malformed; otherwise the repository body is the
    description itself and the release body is a comma-separated list of
    asset names. *)

Module Examples.

Definition toy_repoInfo (body : string) : result string :=
  if String.prefix "!" body then Err "invalid character '!' looking for beginning of value"
  else Ok body.

Definition toy_asset (name : string) : Asset :=
  mkAsset name ("https://dl.example/" +:+ name).

Definition toy_release (body : string) : result (list Asset) :=
  if String.prefix "!" body then Err "invalid character '!' looking for beginning of value"
  else Ok (map toy_asset (Split body ","%char)).

Definition join_slash (dir name : string) : string := dir +:+ "/" +:+ name.

Definition no_fault (_ : FsOp) (_ : string) : option string := None.

(** A Linux/amd64 machine with bash, user home [/home/u], umask 022. *)
Definition linux_env (stdin : string) (http : nat -> string -> HttpResult) : Env :=
  mkEnv "linux" "amd64" "/bin/bash" (Ok "/home/u") stdin http
        toy_repoInfo toy_release join_slash no_fault 18.

(** The API knows [acme/tool] with three assets, two of them for Linux on
    amd64; every other URL is answered 404. *)
Definition acme_http (_ : nat) (url : string) : HttpResult :=
  if String.eqb url "https://api.github.com/repos/acme/tool"
  then Resp 200 "a tool" None
  else if String.eqb url "https://api.github.com/repos/acme/tool/releases/latest"
  then Resp 200 "tool-v2.0.0-darwin-amd64,tool-v2.0.0-linux-amd64,tool-v2.0.0-linux-amd64-musl" None
  else Resp 404 "Not Found" None.

Definition darwin_asset : Asset := toy_asset "tool-v2.0.0-darwin-amd64".
Definition linux_asset : Asset := toy_asset "tool-v2.0.0-linux-amd64".
Definition musl_asset : Asset := toy_asset "tool-v2.0.0-linux-amd64-musl".

Definition home_fs (repolist : string) : gmap string Node :=
  <[ReposList := File repolist 420]> (<["/home/u/.bashrc" := File "# rc" 420]> ∅).

Definition start (fs0 : gmap string Node) : State := mkState [] fs0 0 [].

End Examples.

(** * Properties *)

(** ** Proof steps that recur *)

Lemma remove_first_head (h : Handle) (l : list Handle) :
  remove_first h (h :: l) = l.
Proof. simpl. by rewrite decide_True. Qed.

(** Closes a goal about the handles left open on a return path. *)
Ltac released :=
  unfold run_deferred;
  cbn [fold_left close opened println print acquire set_fs stdout fs nreq];
  repeat rewrite remove_first_head; reflexivity.

(** Turns a status known to differ from 200 into the failed test of the code. *)
Ltac negb_status H :=
  match type of H with
  | ?code <> 200 => apply Z.eqb_neq in H; rewrite H; cbn [negb]
  end.

(** ** Substring search *)

Lemma prefix_cons (a b : ascii) (p s : string) :
  String.prefix (String a p) (String b s)
  = if ascii_dec a b then String.prefix p s else false.
Proof. reflexivity. Qed.

Lemma append_cons (a : ascii) (p q : string) :
  String a p +:+ q = String a (p +:+ q).
Proof. reflexivity. Qed.

Lemma prefix_app (p s : string) :
  String.prefix p s = true <-> exists q, s = p +:+ q.
Proof.
  revert s. induction p as [|a p IH]; intros s.
  - split; [intros _; now exists s | intros _; by destruct s].
  - destruct s as [|b s].
    + split; [discriminate | intros [q Hq]; discriminate].
    + rewrite prefix_cons. destruct (ascii_dec a b) as [->|Hab].
      * rewrite IH. split; intros [q Hq]; exists q;
          rewrite append_cons in *; congruence.
      * split; [discriminate | intros [q Hq]; rewrite append_cons in Hq; congruence].
Qed.

Lemma occurs_at_nil (s substr : string) :
  occurs_at s substr "" <-> String.prefix substr s = true.
Proof. unfold occurs_at. symmetry. apply prefix_app. Qed.

Lemma occurs_at_cons (c : ascii) (s substr p : string) :
  occurs_at (String c s) substr (String c p) <-> occurs_at s substr p.
Proof.
  unfold occurs_at; split; intros [q Hq]; exists q;
    rewrite append_cons in *; congruence.
Qed.

Lemma occurs_at_head (c d : ascii) (s substr p : string) :
  occurs_at (String c s) substr (String d p) -> c = d.
Proof. intros [q Hq]. rewrite append_cons in Hq. congruence. Qed.

Lemma occurs_at_empty (substr p : string) :
  occurs_at "" substr p -> p = "".
Proof. intros [q Hq]. destruct p; [done | discriminate]. Qed.

Lemma Index_from_unfold (s substr : string) (i : Z) :
  Index_from s substr i =
  if String.prefix substr s then i
  else match s with
       | EmptyString => -1
       | String _ s' => Index_from s' substr (i + 1)
       end.
Proof. by destruct s. Qed.

(** [Index_from] either answers [-1], and then there is no occurrence, or
    it answers the offset of the leftmost one. *)
Lemma Index_from_spec (s substr : string) (i : Z) :
  0 <= i ->
  (Index_from s substr i = -1 /\ forall p, ~ occurs_at s substr p) \/
  (exists p, occurs_at s substr p /\
             Index_from s substr i = i + Z.of_nat (String.length p) /\
             forall p', occurs_at s substr p' ->
                        (String.length p <= String.length p')%nat).
Proof.
  revert i. induction s as [|c s IH]; intros i Hi; rewrite Index_from_unfold.
  - destruct (String.prefix substr "") eqn:Hp.
    + right. exists "". rewrite occurs_at_nil.
      repeat split; [done | cbn; lia | intros; cbn; lia].
    + left. split; [done|]. intros p Hocc.
      pose proof (occurs_at_empty _ _ Hocc) as ->.
      apply occurs_at_nil in Hocc. congruence.
  - destruct (String.prefix substr (String c s)) eqn:Hp.
    + right. exists "". rewrite occurs_at_nil.
      repeat split; [done | cbn; lia | intros; cbn; lia].
    + destruct (IH (i + 1)) as [[Hm Hno] | (p & Hocc & Hidx & Hmin)]; [lia | |].
      * left. split; [done|]. intros [|d p] Hocc.
        -- apply occurs_at_nil in Hocc. congruence.
        -- pose proof (occurs_at_head _ _ _ _ _ Hocc) as <-.
           apply occurs_at_cons in Hocc. exact (Hno _ Hocc).
      * right. exists (String c p). split; [by apply occurs_at_cons|].
        split; [rewrite Hidx; cbn [String.length]; lia|].
        intros [|d p'] Hocc'.
        -- apply occurs_at_nil in Hocc'. congruence.
        -- pose proof (occurs_at_head _ _ _ _ _ Hocc') as <-.
           apply occurs_at_cons in Hocc'. cbn [String.length].
           specialize (Hmin _ Hocc'). lia.
Qed.

Lemma Index_spec (s substr : string) :
  (Index s substr = -1 /\ forall p, ~ occurs_at s substr p) \/
  (exists p, occurs_at s substr p /\
             Index s substr = Z.of_nat (String.length p) /\
             forall p', occurs_at s substr p' ->
                        (String.length p <= String.length p')%nat).
Proof.
  unfold Index. destruct (Index_from_spec s substr 0) as [H | (p & H1 & H2 & H3)];
    [lia | by left | right; exists p; repeat split; [done | lia | done]].
Qed.

(** [Contains] is substring containment, byte for byte. *)
Lemma Contains_spec (s substr : string) :
  Contains s substr = true <-> exists p q, s = p +:+ substr +:+ q.
Proof.
  unfold Contains. destruct (Index_spec s substr) as [[Hm Hno] | (p & Hocc & Hidx & _)].
  - rewrite Hm. split; [discriminate|]. intros (p & q & Hpq). destruct (Hno p). by exists q.
  - rewrite Hidx. split; [intros _ | intros _; apply Z.leb_le; lia].
    destruct Hocc as [q Hq]. by exists p, q.
Qed.

Lemma Contains_false_Index (s substr : string) :
  Contains s substr = false <-> Index s substr = -1.
Proof.
  unfold Contains. destruct (Index_spec s substr) as [[Hm _] | (p & _ & Hidx & _)].
  - rewrite Hm. split; [done | reflexivity].
  - rewrite Hidx. split; [intros H; apply Z.leb_gt in H; lia | lia].
Qed.

Lemma substring_prefix (p q : string) :
  substring 0 (String.length p) (p +:+ q) = p.
Proof.
  induction p as [|c p IH].
  - by destruct q.
  - rewrite append_cons. cbn [String.length substring]. by rewrite IH.
Qed.

(** ** Asset selection (lines 127-136) *)

Lemma scan_assets_find (E : Env) (description : string) (assets : list Asset)
    (apps : list appInfo) :
  scan_assets E description assets apps =
  apps ++ match List.find (matches_platform E) assets with
          | Some asset => [app_of description asset]
          | None => []
          end.
Proof.
  induction assets as [|a rest IH]; simpl.
  - by rewrite app_nil_r.
  - by destruct (matches_platform E a).
Qed.

Lemma find_filter_head {A : Type} (p : A -> bool) (l : list A) :
  List.find p l = head (List.filter p l).
Proof.
  induction l as [|x l IH]; simpl; [done|]. by destruct (p x).
Qed.

Lemma find_none_iff {A : Type} (p : A -> bool) (l : list A) :
  List.find p l = None <-> Forall (fun x => p x = false) l.
Proof.
  induction l as [|x l IH]; simpl.
  - split; [constructor | done].
  - destruct (p x) eqn:Hx.
    + split; [discriminate | intros H; inversion H; congruence].
    + rewrite IH. split; [by constructor | by inversion 1].
Qed.

Lemma find_first_match {A : Type} (p : A -> bool) (before after : list A) (x : A) :
  Forall (fun y => p y = false) before -> p x = true ->
  List.find p (before ++ x :: after) = Some x.
Proof.
  induction 1 as [|y before Hy _ IH]; intros Hx; simpl.
  - by rewrite Hx.
  - rewrite Hy. by apply IH.
Qed.

Lemma matches_platform_spec (E : Env) (asset : Asset) :
  matches_platform E asset = true <->
  (exists p q, asset_Name asset = p +:+ GOOS E +:+ q) /\
  (exists p q, asset_Name asset = p +:+ GOARCH E +:+ q).
Proof.
  unfold matches_platform. rewrite andb_true_iff, !Contains_spec. reflexivity.
Qed.

(** The iteration of a reference whose two requests succeed ends in the
    scan of its assets. *)
Lemma fetch_repo_success (E : Env) (line : string) (L : Loop)
    (b1 b2 description : string) (assets : list Asset) :
  TrimSpace line <> "" ->
  http_Get E (nreq (world L)) (BaseURL +:+ TrimSpace line) = Resp 200 b1 None ->
  Unmarshal_repoInfo E b1 = Ok description ->
  http_Get E (S (nreq (world L))) (BaseURL +:+ TrimSpace line +:+ "/releases/latest")
  = Resp 200 b2 None ->
  Unmarshal_release E b2 = Ok assets ->
  availableApps (fetch_repo E line L)
  = scan_assets E description assets (availableApps L).
Proof.
  intros Hne H1 Hd H2 Ha. unfold fetch_repo.
  apply String.eqb_neq in Hne. rewrite Hne.
  unfold Get. rewrite H1. cbn [negb Z.eqb Pos.eqb]. rewrite Hd.
  cbn [acquire nreq]. rewrite H2. cbn [negb Z.eqb Pos.eqb]. rewrite Ha.
  reflexivity.
Qed.

(** C1.  The asset selector takes the first asset, in list order, whose
    name contains both [runtime.GOOS] and [runtime.GOARCH] as byte-exact
    substrings, and stops there; with no such asset the list of available
    applications is left as it was.  Reordering the assets without
    changing the sequence of the matching ones does not change the
    selection.  Within the loop, a reference whose metadata was fetched
    contributes exactly the result of that scan. *)
Theorem asset_selection_first_match (E : Env) (description : string) :
  (forall asset,
      matches_platform E asset = true <->
      (exists p q, asset_Name asset = p +:+ GOOS E +:+ q) /\
      (exists p q, asset_Name asset = p +:+ GOARCH E +:+ q)) /\
  (forall before asset after apps,
      Forall (fun a => matches_platform E a = false) before ->
      matches_platform E asset = true ->
      scan_assets E description (before ++ asset :: after) apps
      = apps ++ [app_of description asset]) /\
  (forall assets apps,
      Forall (fun a => matches_platform E a = false) assets ->
      scan_assets E description assets apps = apps) /\
  (forall assets assets' apps,
      Permutation assets assets' ->
      List.filter (matches_platform E) assets
      = List.filter (matches_platform E) assets' ->
      scan_assets E description assets apps
      = scan_assets E description assets' apps) /\
  (forall line L b1 b2 assets,
      TrimSpace line <> "" ->
      http_Get E (nreq (world L)) (BaseURL +:+ TrimSpace line) = Resp 200 b1 None ->
      Unmarshal_repoInfo E b1 = Ok description ->
      http_Get E (S (nreq (world L)))
               (BaseURL +:+ TrimSpace line +:+ "/releases/latest")
      = Resp 200 b2 None ->
      Unmarshal_release E b2 = Ok assets ->
      availableApps (fetch_repo E line L)
      = availableApps L ++
        match List.find (matches_platform E) assets with
        | Some asset => [app_of description asset]
        | None => []
        end).
Proof.
  split; [apply matches_platform_spec|].
  split.
  { intros before asset after apps Hb Ha.
    by rewrite scan_assets_find, (find_first_match _ _ _ _ Hb Ha). }
  split.
  { intros assets apps Hnone. apply find_none_iff in Hnone.
    by rewrite scan_assets_find, Hnone, app_nil_r. }
  split.
  { intros assets assets' apps _ Hf.
    by rewrite !scan_assets_find, !find_filter_head, Hf. }
  intros line L b1 b2 assets Hne H1 Hd H2 Ha.
  rewrite (fetch_repo_success E line L b1 b2 description assets) by done.
  apply scan_assets_find.
Qed.

Lemma asset_selection_first_match_witness :
  scan_assets (Examples.linux_env "" Examples.acme_http) "a tool"
    ([Examples.darwin_asset] ++ Examples.linux_asset :: [Examples.musl_asset]) []
  = [app_of "a tool" Examples.linux_asset]
  /\ scan_assets (Examples.linux_env "" Examples.acme_http) "a tool"
       [Examples.darwin_asset] [] = []
  /\ scan_assets (Examples.linux_env "" Examples.acme_http) "a tool"
       [Examples.darwin_asset; Examples.linux_asset; Examples.musl_asset] []
     = scan_assets (Examples.linux_env "" Examples.acme_http) "a tool"
         [Examples.linux_asset; Examples.musl_asset; Examples.darwin_asset] []
  /\ availableApps
       (fetch_repo (Examples.linux_env "" Examples.acme_http) " acme/tool "
          (mkLoop [] [] (Examples.start ∅)))
     = [app_of "a tool" Examples.linux_asset].
Proof.
  destruct (asset_selection_first_match
              (Examples.linux_env "" Examples.acme_http) "a tool")
    as (_ & Hfirst & Hnone & Hperm & Hloop).
  split.
  { apply Hfirst; [repeat constructor | reflexivity]. }
  split.
  { apply Hnone. repeat constructor. }
  split.
  { apply Hperm; [|reflexivity].
    apply Permutation_cons_append. }
  refine (Hloop " acme/tool " (mkLoop [] [] (Examples.start ∅)) "a tool"
            "tool-v2.0.0-darwin-amd64,tool-v2.0.0-linux-amd64,tool-v2.0.0-linux-amd64-musl"
            [Examples.darwin_asset; Examples.linux_asset; Examples.musl_asset]
            _ _ _ _ _);
    try reflexivity.
  vm_compute. discriminate.
Defined.

(** C8, as the code has it.  The scan adds at most one entry per reference:
    the entry of the first matching asset when one or more assets match
    (the later ones are ignored), and none when no asset matches.  An entry
    therefore exists exactly when at least one asset matched. *)
Theorem available_entry_first_of_matches (E : Env) (description : string)
    (assets : list Asset) (apps : list appInfo) :
  scan_assets E description assets apps
  = apps ++ map (app_of description)
                (firstn 1 (List.filter (matches_platform E) assets))
  /\ (length (scan_assets E description assets apps) = S (length apps) <->
      Exists (fun a => matches_platform E a = true) assets)
  /\ (scan_assets E description assets apps = apps <->
      Forall (fun a => matches_platform E a = false) assets).
Proof.
  rewrite scan_assets_find.
  destruct (List.find (matches_platform E) assets) as [a|] eqn:Hfind.
  - pose proof Hfind as Hhead. rewrite find_filter_head in Hhead.
    apply find_some in Hfind as [Hin Hm].
    split; [|split].
    + destruct (List.filter (matches_platform E) assets) as [|x l];
        [discriminate|].
      injection Hhead as ->. reflexivity.
    + rewrite length_app. simpl. split; [intros _ | intros _; lia].
      apply List.Exists_exists. exists a. by split.
    + split.
      * intros Heq. apply (f_equal length) in Heq.
        rewrite length_app in Heq. simpl in Heq. lia.
      * intros Hall. rewrite List.Forall_forall in Hall.
        specialize (Hall _ Hin). congruence.
  - pose proof Hfind as Hhead. rewrite find_filter_head in Hhead.
    apply find_none_iff in Hfind.
    split; [|split].
    + by destruct (List.filter (matches_platform E) assets).
    + rewrite app_nil_r. split; [lia|].
      intros Hex. apply List.Exists_exists in Hex as (x & Hin & Hx).
      rewrite List.Forall_forall in Hfind. specialize (Hfind _ Hin). congruence.
    + by rewrite app_nil_r.
Qed.

Lemma available_entry_first_of_matches_witness :
  length (scan_assets (Examples.linux_env "" Examples.acme_http) "a tool"
            [Examples.darwin_asset; Examples.linux_asset] [])
  = 1%nat.
Proof.
  apply (proj1 (proj2 (available_entry_first_of_matches
                         (Examples.linux_env "" Examples.acme_http) "a tool"
                         [Examples.darwin_asset; Examples.linux_asset] []))).
  apply Exists_cons_tl, Exists_cons_hd. reflexivity.
Defined.

(** C8 as stated fails: with two matching assets the match is ambiguous,
    and the entry of the first one is added all the same. *)
Lemma ambiguous_match_adds_entry :
  length (List.filter (matches_platform (Examples.linux_env "" Examples.acme_http))
            [Examples.linux_asset; Examples.musl_asset]) = 2%nat
  /\ scan_assets (Examples.linux_env "" Examples.acme_http) "a tool"
       [Examples.linux_asset; Examples.musl_asset] []
     = [app_of "a tool" Examples.linux_asset].
Proof. split; reflexivity. Qed.

(** ** File-system calls touch one path only *)

Lemma Create_other (E : Env) (fs fs' : gmap string Node) (name path : string) :
  os.Create E fs name = Ok fs' -> path <> name -> fs' !! path = fs !! path.
Proof.
  unfold os.Create. intros H Hne.
  destruct (fault E OpCreate name); [discriminate|].
  destruct (fs !! name) as [[?|? ?]|]; try discriminate;
    injection H as <-; by rewrite lookup_insert_ne.
Qed.

Lemma Write_other (E : Env) (fs fs' : gmap string Node) (name data path : string) :
  os.Write E fs name data = Ok fs' -> path <> name -> fs' !! path = fs !! path.
Proof.
  unfold os.Write. intros H Hne.
  destruct (fault E OpWrite name); [discriminate|].
  destruct (fs !! name) as [[?|? ?]|]; try discriminate;
    injection H as <-; by rewrite lookup_insert_ne.
Qed.

Lemma Chmod_other (E : Env) (fs fs' : gmap string Node) (name path : string) (perm : Z) :
  os.Chmod E fs name perm = Ok fs' -> path <> name -> fs' !! path = fs !! path.
Proof.
  unfold os.Chmod. intros H Hne.
  destruct (fault E OpChmod name); [discriminate|].
  destruct (fs !! name) as [[?|? ?]|]; try discriminate;
    injection H as <-; by rewrite lookup_insert_ne.
Qed.

Lemma io_Copy_other (E : Env) (fs fs' : gmap string Node) (name body path : string)
    (rerr err : option string) :
  io_Copy E fs name body rerr = (fs', err) -> path <> name -> fs' !! path = fs !! path.
Proof.
  unfold io_Copy. intros H Hne.
  destruct (os.Write E fs name body) eqn:Hw; injection H as <- <-; [|done].
  eapply Write_other; eauto.
Qed.

(** ** The downloader (lines 170-206) *)

(** Everything [downloadAndStore] may change in the file system is the one
    path it derives from the URL. *)
Lemma downloadAndStore_other (E : Env) (url dir : string) (st : State) (path : string) :
  path <> filepath_Join E dir
            (substring 0 (Z.to_nat (Index (filepath.Base url) "-v")) (filepath.Base url)) ->
  fs (downloadAndStore E url dir st) !! path = fs st !! path.
Proof.
  intros Hne. unfold downloadAndStore, Get.
  destruct (http_Get E (nreq st) url) as [e|code body rerr]; [done|].
  destruct (Index (filepath.Base url) "-v" =? -1); [done|].
  set (target := filepath_Join E dir _) in *.
  cbn [fs acquire set_fs].
  destruct (os.Create E (fs st) target) as [fs1|e] eqn:Hc; [|done].
  destruct (io_Copy E fs1 target body rerr) as [fs2 [e|]] eqn:Hcopy.
  - cbn. rewrite (io_Copy_other _ _ _ _ _ _ _ _ Hcopy Hne).
    by rewrite (Create_other _ _ _ _ _ Hc Hne).
  - cbn [fs set_fs].
    destruct (os.Chmod E fs2 target 493) as [fs3|e] eqn:Hm; cbn.
    + rewrite (Chmod_other _ _ _ _ _ _ Hm Hne).
      rewrite (io_Copy_other _ _ _ _ _ _ _ _ Hcopy Hne).
      by rewrite (Create_other _ _ _ _ _ Hc Hne).
    + rewrite (io_Copy_other _ _ _ _ _ _ _ _ Hcopy Hne).
      by rewrite (Create_other _ _ _ _ _ Hc Hne).
Qed.

(** With no fault on the target and no directory in its place, the target
    ends up holding the response body, with mode 0755. *)
Lemma downloadAndStore_stored (E : Env) (url dir : string) (st : State)
    (code : Z) (body : string) :
  let filename := filepath.Base url in
  let target := filepath_Join E dir
                  (substring 0 (Z.to_nat (Index filename "-v")) filename) in
  http_Get E (nreq st) url = Resp code body None ->
  Index filename "-v" <> -1 ->
  fault E OpCreate target = None ->
  fault E OpWrite target = None ->
  fault E OpChmod target = None ->
  (forall perm, fs st !! target <> Some (Dir perm)) ->
  fs (downloadAndStore E url dir st) = <[target := File body 493]> (fs st)
  /\ stdout (downloadAndStore E url dir st)
     = stdout st ++ [fmt.Println ["File downloaded and saved to:"; target]].
Proof.
  intros filename target Hget Hidx Hc Hw Hm Hdir.
  unfold downloadAndStore, Get. rewrite Hget.
  fold filename. apply Z.eqb_neq in Hidx. rewrite Hidx. fold target.
  unfold os.Create. rewrite Hc. cbn [fs acquire set_fs].
  destruct (fs st !! target) as [[perm|old perm]|] eqn:Hlook.
  - by destruct (Hdir perm).
  - unfold io_Copy, os.Write. rewrite Hw, lookup_insert_eq, insert_insert_eq.
    cbn [fs set_fs]. unfold os.Chmod. rewrite Hm, lookup_insert_eq, insert_insert_eq.
    by cbn.
  - unfold io_Copy, os.Write. rewrite Hw, lookup_insert_eq, insert_insert_eq.
    cbn [fs set_fs]. unfold os.Chmod. rewrite Hm, lookup_insert_eq, insert_insert_eq.
    by cbn.
Qed.

(** C2.  Once the download request of an asset is answered, the name of
    the output file is a function of the URL's base name alone: the base
    name cut at the first occurrence of ["-v"].  No file other than that
    one is touched, and without faults it receives the body.  A base name
    without ["-v"] gives the error message and leaves the file system as
    it was. *)
Theorem download_filename_from_base (E : Env) (url dir : string) (st : State)
    (code : Z) (body : string) (rerr : option string) :
  http_Get E (nreq st) url = Resp code body rerr ->
  let filename := filepath.Base url in
  let st' := downloadAndStore E url dir st in
  (Contains filename "-v" = false ->
     fs st' = fs st /\
     stdout st' = stdout st ++
       [fmt.Println ["Invalid filename format, cannot find version:"; filename]])
  /\
  (Contains filename "-v" = true ->
     let appName := substring 0 (Z.to_nat (Index filename "-v")) filename in
     let target := filepath_Join E dir appName in
     (exists rest, filename = appName +:+ "-v" +:+ rest) /\
     (forall p q, filename = p +:+ "-v" +:+ q ->
                  (String.length appName <= String.length p)%nat) /\
     (forall path, path <> target -> fs st' !! path = fs st !! path) /\
     (rerr = None ->
      fault E OpCreate target = None ->
      fault E OpWrite target = None ->
      fault E OpChmod target = None ->
      (forall perm, fs st !! target <> Some (Dir perm)) ->
      fs st' = <[target := File body 493]> (fs st) /\
      stdout st' = stdout st ++
        [fmt.Println ["File downloaded and saved to:"; target]])).
Proof.
  intros Hget filename st'. split.
  - intros Hno. apply Contains_false_Index in Hno.
    subst st'. unfold downloadAndStore, Get. rewrite Hget.
    fold filename. rewrite Hno. by cbn.
  - intros Hyes appName target.
    destruct (Index_spec filename "-v") as [[Hm _] | (p & [q Hq] & Hidx & Hmin)].
    { apply Contains_false_Index in Hm. congruence. }
    assert (appName = p) as Happ.
    { subst appName. rewrite Hidx, Nat2Z.id.
      rewrite Hq. apply substring_prefix. }
    split; [exists q; by rewrite Happ|].
    split.
    { intros p' q' Hpq. rewrite Happ. apply Hmin. by exists q'. }
    split.
    { intros path Hne. by apply downloadAndStore_other. }
    intros -> Hc Hw Hch Hdir.
    apply (downloadAndStore_stored E url dir st code body); try done.
    fold filename. rewrite Hidx. lia.
Qed.

Lemma download_filename_from_base_witness :
  (let st' := downloadAndStore (Examples.linux_env "" (fun _ _ => Resp 200 "ELF" None))
                "https://dl.example/myapp-v1.2.0-linux-amd64" "/home/u/.donut-utils"
                (Examples.start ∅) in
   fs st' = <["/home/u/.donut-utils/myapp" := File "ELF" 493]> ∅ /\
   stdout st' = [fmt.Println ["File downloaded and saved to:";
                              "/home/u/.donut-utils/myapp"]])
  /\
  (let st' := downloadAndStore (Examples.linux_env "" (fun _ _ => Resp 200 "ELF" None))
                "https://dl.example/myapp" "/home/u/.donut-utils"
                (Examples.start ∅) in
   fs st' = ∅ /\
   stdout st' = [fmt.Println ["Invalid filename format, cannot find version:";
                              "myapp"]]).
Proof.
  split.
  - pose proof (download_filename_from_base
                  (Examples.linux_env "" (fun _ _ => Resp 200 "ELF" None))
                  "https://dl.example/myapp-v1.2.0-linux-amd64" "/home/u/.donut-utils"
                  (Examples.start ∅) 200 "ELF" None eq_refl) as [_ Hyes].
    destruct (Hyes eq_refl) as (_ & _ & _ & Hstored).
    apply Hstored; try reflexivity. intros perm. vm_compute. discriminate.
  - pose proof (download_filename_from_base
                  (Examples.linux_env "" (fun _ _ => Resp 200 "ELF" None))
                  "https://dl.example/myapp" "/home/u/.donut-utils"
                  (Examples.start ∅) 200 "ELF" None eq_refl) as [Hno _].
    apply (Hno eq_refl).
Defined.

(** C5 fails on the code: [downloadAndStore] never looks at the status
    code.  A download answered 404 is stored like any other: the error body
    becomes the content of the executable and success is reported. *)
Theorem download_non200_is_stored :
  let E := Examples.linux_env "" (fun _ _ => Resp 404 "Not Found" None) in
  let st' := downloadAndStore E "https://dl.example/tool-v2.0.0-linux-amd64"
               "/home/u/.donut-utils" (Examples.start ∅) in
  fs st' !! "/home/u/.donut-utils/tool" = Some (File "Not Found" 493)
  /\ stdout st' = [fmt.Println ["File downloaded and saved to:";
                                "/home/u/.donut-utils/tool"]].
Proof. split; vm_compute; reflexivity. Qed.

(** The metadata fetcher, by contrast, does check the status (lines 77 and
    102): the same 404 there only prints a message. *)
Lemma fetch_repo_non200_skips :
  let E := Examples.linux_env "" (fun _ _ => Resp 404 "Not Found" None) in
  let L := fetch_repo E "acme/tool" (mkLoop [] [] (Examples.start ∅)) in
  availableApps L = []
  /\ stdout (world L)
     = [fmt.Println ["Received non-200 response code when getting repository info:";
                     "404"]].
Proof. split; vm_compute; reflexivity. Qed.

(** ** The metadata fetcher (lines 64-137) and the exits of [main] *)

Lemma run_deferred_keeps (deferred : list Handle) (st : State) :
  stdout (run_deferred deferred st) = stdout st
  /\ fs (run_deferred deferred st) = fs st
  /\ nreq (run_deferred deferred st) = nreq st.
Proof.
  unfold run_deferred. revert st.
  induction deferred as [|h l IH]; intros st; [done|]. simpl.
  destruct (IH (close h st)) as (-> & -> & ->). done.
Qed.

(** Which [return] ends [main] is decided by four calls only. *)
Lemma main_exit (E : Env) (st : State) :
  fst (main E st) =
  match os.ReadFile E (fs st) ReposList with
  | Err _ => ReturnReposList
  | Ok _ =>
    match user_Current E with
    | Err _ => ReturnCurrentUser
    | Ok HomeDir =>
      match os.MkdirAll E (fs st) (filepath_Join E HomeDir DownloadDir) 493 with
      | Err _ => ReturnMkdir
      | Ok _ =>
        match ReadString (Stdin E) "010" with
        | Err _ => ReturnUserInput
        | Ok _ => ReturnEnd
        end
      end
    end
  end.
Proof.
  unfold main. cbn [fs println print].
  destruct (os.ReadFile E (fs st) ReposList); [|done].
  destruct (user_Current E) as [home|]; [|done].
  destruct (os.MkdirAll E (fs st) (filepath_Join E home DownloadDir) 493); [|done].
  by destruct (ReadString (Stdin E) "010").
Qed.

Lemma fetch_repo_failure (E : Env) (line : string) (L : Loop) (operands : list string) :
  TrimSpace line <> "" ->
  fetch_failure E (nreq (world L)) (TrimSpace line) operands ->
  availableApps (fetch_repo E line L) = availableApps L
  /\ stdout (world (fetch_repo E line L)) = stdout (world L) ++ [fmt.Println operands]
  /\ fs (world (fetch_repo E line L)) = fs (world L).
Proof.
  intros Hne Hfail. unfold fetch_repo.
  apply String.eqb_neq in Hne. rewrite Hne. unfold Get.
  destruct Hfail as
    [ e H1 | code body rerr H1 Hc | body e H1 | body e H1 Hd
    | d e (b1 & H1 & Hd) H2 | d code body rerr (b1 & H1 & Hd) H2 Hc
    | d body e (b1 & H1 & Hd) H2 | d body e (b1 & H1 & Hd) H2 Hr ];
    rewrite H1; try (negb_status Hc); try done;
    cbn [negb Z.eqb Pos.eqb]; rewrite Hd; try done;
    cbn [nreq acquire]; rewrite H2; try (negb_status Hc); try done.
  cbn [negb Z.eqb Pos.eqb]. by rewrite Hr.
Qed.

(** C4.  A metadata request of a reference that fails -- by a transport
    error, a status other than 200, a body-read error or a decode error, on
    the repository request or on the release request -- prints its message
    and skips that reference only: the list of available applications and
    the file system stay as they were, the loop goes on with the next
    reference, and [main] does not return because of it (with the list
    file, the user and the download directory in order, [main] returns
    where the confirmation line decides). *)
Theorem metadata_failure_skips_reference (E : Env) (line : string) (L : Loop)
    (operands : list string) :
  TrimSpace line <> "" ->
  fetch_failure E (nreq (world L)) (TrimSpace line) operands ->
  (availableApps (fetch_repo E line L) = availableApps L
   /\ stdout (world (fetch_repo E line L)) = stdout (world L) ++ [fmt.Println operands]
   /\ fs (world (fetch_repo E line L)) = fs (world L))
  /\ (forall rest,
        fetch_all E (line :: rest) L = fetch_all E rest (fetch_repo E line L))
  /\ (forall st data HomeDir fs1,
        os.ReadFile E (fs st) ReposList = Ok data ->
        user_Current E = Ok HomeDir ->
        os.MkdirAll E (fs st) (filepath_Join E HomeDir DownloadDir) 493 = Ok fs1 ->
        fst (main E st) = match ReadString (Stdin E) "010" with
                          | Ok _ => ReturnEnd
                          | Err _ => ReturnUserInput
                          end).
Proof.
  intros Hne Hfail. split; [by apply fetch_repo_failure|].
  split; [reflexivity|].
  intros st data home fs1 Hr Hu Hm. by rewrite main_exit, Hr, Hu, Hm.
Qed.

Lemma metadata_failure_skips_reference_witness :
  stdout (world (fetch_repo (Examples.linux_env "no" Examples.acme_http) "bad/repo"
                   (mkLoop [] [] (Examples.start ∅))))
  = [fmt.Println ["Received non-200 response code when getting repository info:"; "404"]]
  /\ availableApps
       (fetch_all (Examples.linux_env "no" Examples.acme_http) ["bad/repo"; "acme/tool"]
          (mkLoop [] [] (Examples.start ∅)))
     = [app_of "a tool" Examples.linux_asset]
  /\ fst (main (Examples.linux_env "no" Examples.acme_http)
            (Examples.start (Examples.home_fs "bad/repo")))
     = ReturnUserInput.
Proof.
  assert (fetch_failure (Examples.linux_env "no" Examples.acme_http) 0
            (TrimSpace "bad/repo")
            ["Received non-200 response code when getting repository info:"; Itoa 404])
    as Hfail.
  { apply (info_status _ _ _ 404 "Not Found" None); [reflexivity | lia]. }
  assert (TrimSpace "bad/repo" <> "") as Hne by (vm_compute; discriminate).
  destruct (metadata_failure_skips_reference
              (Examples.linux_env "no" Examples.acme_http) "bad/repo"
              (mkLoop [] [] (Examples.start ∅)) _ Hne Hfail)
    as ((_ & Hout & _) & Hnext & Hmain).
  split; [exact Hout|]. split.
  - rewrite Hnext. vm_compute. reflexivity.
  - rewrite (Hmain (Examples.start (Examples.home_fs "bad/repo")) "bad/repo" "/home/u"
               (<["/home/u/.donut-utils" := Dir 493]> (Examples.home_fs "bad/repo")));
      reflexivity.
Defined.

(** ** The four fatal failures *)

(** C6.  [main] returns early in four cases and no other: the list file
    cannot be read, the current user (whose home directory is needed)
    cannot be resolved, the download directory cannot be created, the
    confirmation line cannot be read.  Each prints its message and
    returns: the first three before any request is made, the fourth
    without downloading and without touching the PATH.  [main] reaches its
    end exactly when all four calls succeed; in particular a run in which
    the current user cannot be resolved never gets further than line 45. *)
Theorem fatal_failures (E : Env) (st : State) :
  let st1 := println [introduction] (println [banner] st) in
  (forall e,
      os.ReadFile E (fs st) ReposList = Err e ->
      main E st = (ReturnReposList, println ["Failed to read repos list file:"; e] st1))
  /\ (forall data e,
        os.ReadFile E (fs st) ReposList = Ok data ->
        user_Current E = Err e ->
        main E st = (ReturnCurrentUser, println ["Failed to get current user:"; e] st1))
  /\ (forall data HomeDir e,
        os.ReadFile E (fs st) ReposList = Ok data ->
        user_Current E = Ok HomeDir ->
        os.MkdirAll E (fs st) (filepath_Join E HomeDir DownloadDir) 493 = Err e ->
        main E st
        = (ReturnMkdir, println ["Failed to create download directory:"; e] st1))
  /\ (forall data HomeDir fs1 e,
        os.ReadFile E (fs st) ReposList = Ok data ->
        user_Current E = Ok HomeDir ->
        os.MkdirAll E (fs st) (filepath_Join E HomeDir DownloadDir) 493 = Ok fs1 ->
        ReadString (Stdin E) "010" = Err e ->
        let L := fetched E data (started st fs1) in
        main E st
        = (ReturnUserInput,
           run_deferred (deferred L)
             (println ["Failed to read user input:"; e] (asked L))))
  /\ (fst (main E st) = ReturnEnd <->
      exists data HomeDir fs1 line,
        os.ReadFile E (fs st) ReposList = Ok data
        /\ user_Current E = Ok HomeDir
        /\ os.MkdirAll E (fs st) (filepath_Join E HomeDir DownloadDir) 493 = Ok fs1
        /\ ReadString (Stdin E) "010" = Ok line)
  /\ (forall e, user_Current E = Err e ->
        fst (main E st) = ReturnReposList \/ fst (main E st) = ReturnCurrentUser).
Proof.
  intros st1. subst st1.
  split. { intros e Hr. unfold main. cbn [fs println print]. by rewrite Hr. }
  split. { intros data e Hr Hu. unfold main. cbn [fs println print]. by rewrite Hr, Hu. }
  split.
  { intros data home e Hr Hu Hm. unfold main. cbn [fs println print].
    by rewrite Hr, Hu, Hm. }
  split.
  { intros data home fs1 e Hr Hu Hm Hs L. unfold main. cbn [fs println print].
    by rewrite Hr, Hu, Hm, Hs. }
  split.
  { rewrite main_exit. split.
    - destruct (os.ReadFile E (fs st) ReposList) as [data|] eqn:Hr; [|done].
      destruct (user_Current E) as [home|] eqn:Hu; [|done].
      destruct (os.MkdirAll E (fs st) (filepath_Join E home DownloadDir) 493)
        as [fs1|] eqn:Hm; [|done].
      destruct (ReadString (Stdin E) "010") as [line|] eqn:Hs; [|done].
      intros _. by exists data, home, fs1, line.
    - intros (data & home & fs1 & line & -> & -> & -> & ->). done. }
  intros e Hu. rewrite main_exit, Hu.
  destruct (os.ReadFile E (fs st) ReposList); [by right | by left].
Qed.

Lemma fatal_failures_witness :
  main (mkEnv "linux" "amd64" "/bin/bash" (Err "user: unknown userid 1000") "yes"
          Examples.acme_http Examples.toy_repoInfo Examples.toy_release
          Examples.join_slash Examples.no_fault 18)
       (Examples.start (Examples.home_fs "acme/tool"))
  = (ReturnCurrentUser,
     println ["Failed to get current user:"; "user: unknown userid 1000"]
       (println [introduction]
          (println [banner] (Examples.start (Examples.home_fs "acme/tool")))))
  /\ fst (main (Examples.linux_env "yes" Examples.acme_http)
            (Examples.start (Examples.home_fs "acme/tool")))
     = ReturnUserInput
  /\ fst (main (Examples.linux_env "yes" Examples.acme_http) (Examples.start ∅))
     = ReturnReposList.
Proof.
  split; [|split].
  - apply (proj1 (proj2 (fatal_failures _ _)) "acme/tool"); reflexivity.
  - destruct (fatal_failures (Examples.linux_env "yes" Examples.acme_http)
                (Examples.start (Examples.home_fs "acme/tool")))
      as (_ & _ & _ & H & _).
    rewrite (H "acme/tool" "/home/u"
               (<["/home/u/.donut-utils" := Dir 493]> (Examples.home_fs "acme/tool"))
               "EOF"); reflexivity.
  - destruct (fatal_failures (Examples.linux_env "yes" Examples.acme_http)
                (Examples.start ∅)) as (H & _).
    rewrite (H "open repolist.txt: no such file or directory"); reflexivity.
Defined.

(** ** PATH registration (lines 208-246) *)

Lemma addToPath_appends (E : Env) (dir : string) (st : State)
    (shellrc HomeDir old : string) (perm : Z) :
  supported_shellrc E = Some shellrc ->
  user_Current E = Ok HomeDir ->
  fs st !! filepath_Join E HomeDir shellrc = Some (File old perm) ->
  fault E OpOpenFile (filepath_Join E HomeDir shellrc) = None ->
  fault E OpWrite (filepath_Join E HomeDir shellrc) = None ->
  fs (addToPath E dir st)
  = <[filepath_Join E HomeDir shellrc := File (old +:+ export_line dir) perm]> (fs st).
Proof.
  unfold addToPath. intros Hsh Hu Hlook Ho Hw.
  rewrite Hsh, Hu. unfold os.OpenFile_append. rewrite Ho, Hlook.
  cbn [fs acquire]. unfold os.Write. rewrite Hw, Hlook. by cbn.
Qed.

(** Lines 222-226 on their own: were the user not resolved there,
    [addToPath] would print and return without touching any file.  In a
    run of [main] this cannot happen, the user having been resolved at
    line 42 ([fatal_failures]). *)
Lemma addToPath_user_failure (E : Env) (dir : string) (st : State)
    (shellrc e : string) :
  supported_shellrc E = Some shellrc ->
  user_Current E = Err e ->
  addToPath E dir st = println ["Failed to get current user:"; e] st.
Proof. unfold addToPath. by intros -> ->. Qed.

(** C7, as the code has it.  With a supported shell ([SHELL] contains
    [bash], else [zsh]), a resolved user and a profile file that exists,
    opens and takes the write, one run of [addToPath] appends exactly the
    line [\nexport PATH=$PATH:<dir>] to [~/.bashrc] (resp. [~/.zshrc]) and
    changes nothing else; a second run appends the same line again, so the
    profile ends with two copies.  With any other shell the instructions
    are printed and the file system is not touched. *)
Theorem addToPath_no_dedup (E : Env) (dir : string) (st : State) :
  export_line dir = nl +:+ "export PATH=$PATH:" +:+ dir
  /\ (forall HomeDir old perm,
        Contains (Getenv_SHELL E) "bash" || Contains (Getenv_SHELL E) "zsh" = true ->
        let shellrc := if Contains (Getenv_SHELL E) "bash" then ".bashrc" else ".zshrc" in
        let profile := filepath_Join E HomeDir shellrc in
        user_Current E = Ok HomeDir ->
        fs st !! profile = Some (File old perm) ->
        fault E OpOpenFile profile = None ->
        fault E OpWrite profile = None ->
        fs (addToPath E dir st)
        = <[profile := File (old +:+ export_line dir) perm]> (fs st)
        /\ fs (addToPath E dir (addToPath E dir st))
           = <[profile := File ((old +:+ export_line dir) +:+ export_line dir) perm]>
               (fs st))
  /\ (Contains (Getenv_SHELL E) "bash" = false ->
      Contains (Getenv_SHELL E) "zsh" = false ->
      fs (addToPath E dir st) = fs st
      /\ stdout (addToPath E dir st)
         = stdout st ++
           [fmt.Println ["Unsupported shell. Please add the following directory to your PATH manually:"];
            fmt.Println [dir]]).
Proof.
  split; [reflexivity|]. split.
  - intros home old perm Hsup shellrc profile Hu Hlook Ho Hw.
    assert (supported_shellrc E = Some shellrc) as Hsh.
    { unfold supported_shellrc. subst shellrc.
      destruct (Contains (Getenv_SHELL E) "bash"); [done|].
      simpl in Hsup. by rewrite Hsup. }
    pose proof (addToPath_appends E dir st shellrc home old perm Hsh Hu Hlook Ho Hw)
      as Hone.
    split; [exact Hone|].
    rewrite (addToPath_appends E dir (addToPath E dir st) shellrc home
               (old +:+ export_line dir) perm Hsh Hu); try done.
    + fold profile in Hone |- *. by rewrite Hone, insert_insert_eq.
    + fold profile in Hone |- *. by rewrite Hone, lookup_insert_eq.
  - intros Hb Hz. unfold addToPath, supported_shellrc. rewrite Hb, Hz. cbn.
    by rewrite <- app_assoc.
Qed.

Lemma addToPath_no_dedup_witness :
  fs (addToPath (Examples.linux_env "" Examples.acme_http) "/home/u/.donut-utils"
        (addToPath (Examples.linux_env "" Examples.acme_http) "/home/u/.donut-utils"
           (Examples.start (Examples.home_fs ""))))
  = <["/home/u/.bashrc" :=
        File ("# rc" +:+ nl +:+ "export PATH=$PATH:/home/u/.donut-utils"
                     +:+ nl +:+ "export PATH=$PATH:/home/u/.donut-utils") 420]>
      (Examples.home_fs "")
  /\ fs (addToPath
           (mkEnv "linux" "amd64" "/usr/bin/fish" (Ok "/home/u") "" Examples.acme_http
                  Examples.toy_repoInfo Examples.toy_release Examples.join_slash
                  Examples.no_fault 18)
           "/home/u/.donut-utils" (Examples.start (Examples.home_fs "")))
     = Examples.home_fs "".
Proof.
  split.
  - destruct (addToPath_no_dedup (Examples.linux_env "" Examples.acme_http)
                "/home/u/.donut-utils" (Examples.start (Examples.home_fs "")))
      as (_ & Hsup & _).
    refine (proj2 (Hsup "/home/u" "# rc" 420 _ _ _ _ _)); reflexivity.
  - destruct (addToPath_no_dedup
                (mkEnv "linux" "amd64" "/usr/bin/fish" (Ok "/home/u") "" Examples.acme_http
                       Examples.toy_repoInfo Examples.toy_release Examples.join_slash
                       Examples.no_fault 18)
                "/home/u/.donut-utils" (Examples.start (Examples.home_fs "")))
      as (_ & _ & Hunsup).
    apply Hunsup; reflexivity.
Defined.

(** C7 as stated fails: a supported shell is not enough.  With [bash] as
    the shell and no [~/.bashrc], the open of line 229 (which has no
    [O_CREATE]) fails; one run, and two runs, append nothing and leave the
    file system as it was. *)
Lemma addToPath_without_profile_appends_nothing :
  supported_shellrc (Examples.linux_env "" Examples.acme_http) = Some ".bashrc"
  /\ user_Current (Examples.linux_env "" Examples.acme_http) = Ok "/home/u"
  /\ fs (addToPath (Examples.linux_env "" Examples.acme_http) "/home/u/.donut-utils"
           (Examples.start ∅)) = ∅
  /\ fs (addToPath (Examples.linux_env "" Examples.acme_http) "/home/u/.donut-utils"
           (addToPath (Examples.linux_env "" Examples.acme_http) "/home/u/.donut-utils"
              (Examples.start ∅))) = ∅
  /\ stdout (addToPath (Examples.linux_env "" Examples.acme_http) "/home/u/.donut-utils"
               (Examples.start ∅))
     = [fmt.Println ["Failed to open shellrc file:";
                     "open /home/u/.bashrc: no such file or directory"]].
Proof. repeat split; vm_compute; reflexivity. Qed.

(** ** Requests and resources of the two helper functions *)

Lemma downloadAndStore_nreq (E : Env) (url dir : string) (st : State) :
  nreq (downloadAndStore E url dir st) = S (nreq st).
Proof.
  unfold downloadAndStore, Get.
  destruct (http_Get E (nreq st) url) as [e|code body rerr]; [done|].
  destruct (Index (filepath.Base url) "-v" =? -1); [done|].
  cbn [fs acquire set_fs].
  destruct (os.Create E (fs st) _) as [fs1|e]; [|done].
  destruct (io_Copy E fs1 _ body rerr) as [fs2 [e|]]; [done|].
  cbn [fs set_fs]. by destruct (os.Chmod E fs2 _ 493).
Qed.

Lemma download_all_nreq (E : Env) (apps : list appInfo) (dir : string) (st : State) :
  nreq (download_all E apps dir st) = (nreq st + length apps)%nat.
Proof.
  unfold download_all. revert st.
  induction apps as [|app apps IH]; intros st; simpl; [lia|].
  rewrite IH, downloadAndStore_nreq. lia.
Qed.

Lemma addToPath_nreq (E : Env) (dir : string) (st : State) :
  nreq (addToPath E dir st) = nreq st.
Proof.
  unfold addToPath, supported_shellrc.
  destruct (Contains (Getenv_SHELL E) "bash"), (Contains (Getenv_SHELL E) "zsh");
    try done;
    (destruct (user_Current E) as [home|]; [|done];
     destruct (os.OpenFile_append E (fs st) _); [|done];
     cbn [fs acquire]; by destruct (os.Write E (fs st) _ _)).
Qed.

Lemma register_path_nreq (E : Env) (dir : string) (st : State) :
  nreq (register_path E dir st) = nreq st.
Proof.
  unfold register_path. destruct (String.eqb (GOOS E) "windows"); [done|].
  cbn. apply addToPath_nreq.
Qed.

(** Both helper functions close what they open before they return. *)
Lemma downloadAndStore_releases (E : Env) (url dir : string) (st : State) :
  opened (downloadAndStore E url dir st) = opened st.
Proof.
  unfold downloadAndStore, Get.
  destruct (http_Get E (nreq st) url) as [e|code body rerr]; [done|].
  destruct (Index (filepath.Base url) "-v" =? -1); [released|].
  cbn [fs acquire set_fs].
  destruct (os.Create E (fs st) _) as [fs1|e]; [|released].
  destruct (io_Copy E fs1 _ body rerr) as [fs2 [e|]]; [released|].
  cbn [fs set_fs].
  destruct (os.Chmod E fs2 _ 493); released.
Qed.

Lemma addToPath_releases (E : Env) (dir : string) (st : State) :
  opened (addToPath E dir st) = opened st.
Proof.
  unfold addToPath, supported_shellrc.
  destruct (Contains (Getenv_SHELL E) "bash"), (Contains (Getenv_SHELL E) "zsh");
    try done;
    (destruct (user_Current E) as [home|]; [|done];
     destruct (os.OpenFile_append E (fs st) _); [|done];
     cbn [fs acquire];
     destruct (os.Write E (fs st) _ _); released).
Qed.

(** ** The confirmation gate and what follows it (lines 145-168) *)

Lemma register_path_last_line (E : Env) (dir : string) (st : State) :
  last (stdout (register_path E dir st))
  = Some (if String.eqb (GOOS E) "windows"
          then fmt.Println ["You may need to restart your terminal or system for changes to take effect."]
          else fmt.Println ["For zsh:  source ~/.zshrc"]).
Proof.
  unfold register_path.
  destruct (String.eqb (GOOS E) "windows"); cbn [stdout println print];
    apply last_snoc.
Qed.

Lemma run_deferred_stdout (deferred : list Handle) (st : State) :
  stdout (run_deferred deferred st) = stdout st.
Proof. apply run_deferred_keeps. Qed.

Lemma run_deferred_fs (deferred : list Handle) (st : State) :
  fs (run_deferred deferred st) = fs st.
Proof. apply run_deferred_keeps. Qed.

Lemma run_deferred_nreq (deferred : list Handle) (st : State) :
  nreq (run_deferred deferred st) = nreq st.
Proof. apply run_deferred_keeps. Qed.

Section AfterStartup.

Variables (E : Env) (st : State) (data HomeDir : string) (fs1 : gmap string Node).
Variable line : string.

Hypothesis Hread : os.ReadFile E (fs st) ReposList = Ok data.
Hypothesis Huser : user_Current E = Ok HomeDir.
Hypothesis Hmkdir :
  os.MkdirAll E (fs st) (filepath_Join E HomeDir DownloadDir) 493 = Ok fs1.
Hypothesis Hline : ReadString (Stdin E) "010" = Ok line.

Local Abbreviation downloadPath := (filepath_Join E HomeDir DownloadDir).
Local Abbreviation L := (fetched E data (started st fs1)).
Local Abbreviation left_by_gate :=
  (if confirmed line
   then download_all E (availableApps L) downloadPath (asked L)
   else asked L).

Lemma main_after_startup :
  main E st
  = (ReturnEnd, run_deferred (deferred L) (register_path E downloadPath left_by_gate)).
Proof using Hread Huser Hmkdir Hline.
  unfold main. cbn [fs println print]. rewrite Hread, Huser, Hmkdir, Hline.
  reflexivity.
Qed.

(** C3.  The downloads run exactly when the line read from standard input,
    trimmed and lower-cased, is ["yes"]: then one download request is made
    per available application; with any other line none is made and the
    program goes straight on.  ["y"], ["Yes please"] and the empty line do
    not pass the gate; [" YES "] does, and so does ["yes"] followed by a
    no-break space (U+00A0), which [TrimSpace] trims like any other white
    space of [unicode.IsSpace]. *)
Theorem confirmation_gate :
  (ToLower (TrimSpace line) = "yes" ->
     snd (main E st)
     = run_deferred (deferred L)
         (register_path E downloadPath
            (download_all E (availableApps L) downloadPath (asked L)))
     /\ nreq (snd (main E st)) = (nreq (asked L) + length (availableApps L))%nat)
  /\ (ToLower (TrimSpace line) <> "yes" ->
     snd (main E st)
     = run_deferred (deferred L) (register_path E downloadPath (asked L))
     /\ nreq (snd (main E st)) = nreq (asked L))
  /\ confirmed ("y" +:+ nl) = false
  /\ confirmed ("Yes please" +:+ nl) = false
  /\ confirmed ("" +:+ nl) = false
  /\ confirmed "" = false
  /\ confirmed (" YES " +:+ nl) = true
  /\ confirmed ("yes" +:+ nl) = true
  /\ confirmed ("yes" +:+ bytes2 194 160 +:+ nl) = true.
Proof using Hread Huser Hmkdir Hline.
  rewrite main_after_startup. cbn [snd].
  split; [|split].
  - intros Hyes.
    assert (confirmed line = true) as -> by (unfold confirmed; by rewrite Hyes).
    split; [reflexivity|].
    by rewrite run_deferred_nreq, register_path_nreq, download_all_nreq.
  - intros Hno.
    assert (confirmed line = false) as -> by (by apply String.eqb_neq).
    split; [reflexivity|].
    by rewrite run_deferred_nreq, register_path_nreq.
  - repeat split; reflexivity.
Qed.

(** C10.  Once the confirmation line has been read, the PATH step of
    lines 158-168 always runs, whatever the answer: [main] ends with
    [register_path] applied to the state the gate leaves, which for an
    answer other than "yes", and likewise for an empty list, is the state
    in which the question was asked.  So on Windows the three instruction
    lines are always printed, and elsewhere [addToPath] is always called:
    with a supported shell and a profile that opens and takes the write,
    the export line is in the profile when [main] returns. *)
Theorem path_step_always_runs :
  snd (main E st) = run_deferred (deferred L) (register_path E downloadPath left_by_gate)
  /\ (confirmed line = false -> left_by_gate = asked L)
  /\ (availableApps L = [] -> left_by_gate = asked L)
  /\ (String.eqb (GOOS E) "windows" = true ->
      fs (snd (main E st)) = fs left_by_gate
      /\ stdout (snd (main E st))
         = stdout left_by_gate ++
           [fmt.Println ["Please add the following directory to your PATH manually in Windows:"];
            fmt.Println [downloadPath];
            fmt.Println ["You may need to restart your terminal or system for changes to take effect."]])
  /\ (String.eqb (GOOS E) "windows" = false ->
      forall shellrc old perm,
        supported_shellrc E = Some shellrc ->
        fs left_by_gate !! filepath_Join E HomeDir shellrc = Some (File old perm) ->
        fault E OpOpenFile (filepath_Join E HomeDir shellrc) = None ->
        fault E OpWrite (filepath_Join E HomeDir shellrc) = None ->
        fs (snd (main E st))
        = <[filepath_Join E HomeDir shellrc :=
              File (old +:+ export_line downloadPath) perm]> (fs left_by_gate))
  /\ last (stdout (snd (main E st)))
     = Some (if String.eqb (GOOS E) "windows"
             then fmt.Println ["You may need to restart your terminal or system for changes to take effect."]
             else fmt.Println ["For zsh:  source ~/.zshrc"]).
Proof using Hread Huser Hmkdir Hline.
  rewrite main_after_startup. cbn [snd].
  split; [reflexivity|]. split; [by intros ->|]. split.
  { intros ->. by destruct (confirmed line). }
  rewrite run_deferred_stdout, run_deferred_fs.
  split.
  { intros Hw. unfold register_path. rewrite Hw. cbn [fs stdout println print].
    by rewrite <- !app_assoc. }
  split.
  { intros Hw shellrc old perm Hsh Hlook Ho Hwr.
    unfold register_path. rewrite Hw. cbn [fs println print].
    by apply addToPath_appends. }
  apply register_path_last_line.
Qed.

End AfterStartup.

Lemma confirmation_gate_witness :
  nreq (snd (main (Examples.linux_env (" YES " +:+ nl) Examples.acme_http)
               (Examples.start (Examples.home_fs "acme/tool")))) = 3%nat
  /\ nreq (snd (main (Examples.linux_env ("Yes please" +:+ nl) Examples.acme_http)
                  (Examples.start (Examples.home_fs "acme/tool")))) = 2%nat
  /\ nreq (snd (main (Examples.linux_env ("yes" +:+ bytes2 194 160 +:+ nl)
                       Examples.acme_http)
                  (Examples.start (Examples.home_fs "acme/tool")))) = 3%nat.
Proof.
  split; [|split].
  - destruct (confirmation_gate
                (Examples.linux_env (" YES " +:+ nl) Examples.acme_http)
                (Examples.start (Examples.home_fs "acme/tool"))
                "acme/tool" "/home/u"
                (<["/home/u/.donut-utils" := Dir 493]> (Examples.home_fs "acme/tool"))
                (" YES " +:+ nl) eq_refl eq_refl eq_refl eq_refl) as (Hyes & _).
    destruct (Hyes eq_refl) as [_ Hn]. exact Hn.
  - destruct (confirmation_gate
                (Examples.linux_env ("Yes please" +:+ nl) Examples.acme_http)
                (Examples.start (Examples.home_fs "acme/tool"))
                "acme/tool" "/home/u"
                (<["/home/u/.donut-utils" := Dir 493]> (Examples.home_fs "acme/tool"))
                ("Yes please" +:+ nl) eq_refl eq_refl eq_refl eq_refl) as (_ & Hno & _).
    refine (proj2 (Hno _)). vm_compute. discriminate.
  - destruct (confirmation_gate
                (Examples.linux_env ("yes" +:+ bytes2 194 160 +:+ nl) Examples.acme_http)
                (Examples.start (Examples.home_fs "acme/tool"))
                "acme/tool" "/home/u"
                (<["/home/u/.donut-utils" := Dir 493]> (Examples.home_fs "acme/tool"))
                ("yes" +:+ bytes2 194 160 +:+ nl) eq_refl eq_refl eq_refl eq_refl)
      as (Hyes & _).
    destruct (Hyes eq_refl) as [_ Hn]. exact Hn.
Defined.

(** Declining the download still registers the PATH: the answer "no" on a
    Linux machine with bash leaves the export line in [~/.bashrc]. *)
Lemma path_step_always_runs_witness :
  fs (snd (main (Examples.linux_env ("no" +:+ nl) Examples.acme_http)
             (Examples.start (Examples.home_fs "acme/tool"))))
  !! "/home/u/.bashrc"
  = Some (File ("# rc" +:+ nl +:+ "export PATH=$PATH:/home/u/.donut-utils") 420)
  /\ last (stdout (snd (main (Examples.linux_env ("no" +:+ nl) Examples.acme_http)
                         (Examples.start (Examples.home_fs "acme/tool")))))
     = Some (fmt.Println ["For zsh:  source ~/.zshrc"]).
Proof.
  destruct (path_step_always_runs
              (Examples.linux_env ("no" +:+ nl) Examples.acme_http)
              (Examples.start (Examples.home_fs "acme/tool"))
              "acme/tool" "/home/u"
              (<["/home/u/.donut-utils" := Dir 493]> (Examples.home_fs "acme/tool"))
              ("no" +:+ nl) eq_refl eq_refl eq_refl eq_refl)
    as (_ & _ & _ & _ & Hunix & Hlast).
  split; [|exact Hlast].
  rewrite (Hunix eq_refl ".bashrc" "# rc" 420 eq_refl eq_refl eq_refl eq_refl).
  reflexivity.
Defined.

(** ** Response bodies in the loop of [main]

    C9 fails on the code.  The two [defer resp.Body.Close()] of lines 81
    and 107 are deferred calls of [main], so the bodies stay open until
    [main] returns, not until the iteration ends; and the status checks of
    lines 77 and 102 [continue] before the [defer] is reached, so the body
    of a response with another status is never closed at all. *)
Theorem response_bodies_outlive_iteration :
  opened (world (fetch_repo (Examples.linux_env ("no" +:+ nl) Examples.acme_http)
                   "acme/tool" (mkLoop [] [] (Examples.start ∅))))
  = [HBody 1; HBody 0]
  /\ opened (world (fetch_repo
                      (Examples.linux_env ("no" +:+ nl)
                         (fun _ _ => Resp 404 "Not Found" None))
                      "acme/tool" (mkLoop [] [] (Examples.start ∅))))
     = [HBody 0]
  /\ fst (main (Examples.linux_env ("no" +:+ nl) (fun _ _ => Resp 404 "Not Found" None))
            (Examples.start (Examples.home_fs "acme/tool")))
     = ReturnEnd
  /\ opened (snd (main (Examples.linux_env ("no" +:+ nl)
                         (fun _ _ => Resp 404 "Not Found" None))
                      (Examples.start (Examples.home_fs "acme/tool"))))
     = [HBody 0].
Proof. repeat split; vm_compute; reflexivity. Qed.

(** By contrast, whatever the loop has deferred is closed when [main]
    returns, and the helper functions leave no handle behind: after a run
    in which both metadata responses had status 200, nothing is open. *)
Lemma deferred_bodies_closed_at_return :
  opened (snd (main (Examples.linux_env ("yes" +:+ nl) Examples.acme_http)
                 (Examples.start (Examples.home_fs "acme/tool"))))
  = [].
Proof. vm_compute. reflexivity. Qed.

(** * Further properties of the program *)

(** ** The loop over the repositories (lines 64-137) *)

(** One iteration: the file system is not touched, at most two requests
    are made (none for a blank line), and the list grows at its end by at
    most one entry, which fits the platform. *)
Lemma fetch_repo_step (E : Env) (line : string) (L : Loop) :
  fs (world (fetch_repo E line L)) = fs (world L)
  /\ (nreq (world L) <= nreq (world (fetch_repo E line L))
      <= nreq (world L) + (if nonblank line then 2 else 0))%nat
  /\ exists new,
       availableApps (fetch_repo E line L) = availableApps L ++ new
       /\ (length new <= (if nonblank line then 1 else 0))%nat
       /\ Forall (app_matches E) new.
Proof.
  assert (exists new : list appInfo,
             availableApps L = availableApps L ++ new
             /\ (length new <= 1)%nat /\ Forall (app_matches E) new) as Hnone.
  { exists []. rewrite app_nil_r. repeat split; [simpl; lia | constructor]. }
  unfold fetch_repo, nonblank.
  destruct (String.eqb (TrimSpace line) "").
  { cbn [negb]. repeat split; try lia. exists []. by rewrite app_nil_r. }
  cbn [negb]. unfold Get, skip.
  destruct (http_Get E (nreq (world L)) _) as [e|code body rerr];
    [cbn; repeat split; try lia; by apply Hnone|].
  destruct (negb (code =? 200)); [cbn; repeat split; try lia; by apply Hnone|].
  destruct rerr as [e|]; [cbn; repeat split; try lia; by apply Hnone|].
  destruct (Unmarshal_repoInfo E body) as [description|e];
    [|cbn; repeat split; try lia; by apply Hnone].
  cbn [nreq acquire fs stdout opened].
  destruct (http_Get E (S (nreq (world L))) _) as [e|code2 body2 rerr2];
    [cbn; repeat split; try lia; by apply Hnone|].
  destruct (negb (code2 =? 200)); [cbn; repeat split; try lia; by apply Hnone|].
  destruct rerr2 as [e|]; [cbn; repeat split; try lia; by apply Hnone|].
  destruct (Unmarshal_release E body2) as [assets|e];
    [|cbn; repeat split; try lia; by apply Hnone].
  cbn [world availableApps fs nreq acquire]. repeat split; try lia.
  rewrite scan_assets_find.
  destruct (List.find (matches_platform E) assets) as [asset|] eqn:Hfind.
  - exists [app_of description asset]. repeat split; [simpl; lia|].
    apply find_some in Hfind as [_ Hm].
    apply andb_true_iff in Hm as [Hos Harch].
    repeat constructor; done.
  - exists []. repeat split; [simpl; lia | constructor].
Qed.

Lemma fetch_all_steps (E : Env) (repos : list string) (L : Loop) :
  fs (world (fetch_all E repos L)) = fs (world L)
  /\ (nreq (world L) <= nreq (world (fetch_all E repos L))
      <= nreq (world L) + 2 * length (List.filter nonblank repos))%nat
  /\ exists new,
       availableApps (fetch_all E repos L) = availableApps L ++ new
       /\ (length new <= length (List.filter nonblank repos))%nat
       /\ Forall (app_matches E) new.
Proof.
  unfold fetch_all. revert L.
  induction repos as [|line repos IH]; intros L.
  - cbn. repeat split; try lia. exists []. by rewrite app_nil_r.
  - cbn [fold_left List.filter].
    destruct (fetch_repo_step E line L) as (Hfs & Hn & new1 & Happs & Hlen & Hall).
    destruct (IH (fetch_repo E line L)) as (Hfs' & Hn' & new2 & Happs' & Hlen' & Hall').
    split; [congruence|].
    split.
    { destruct (nonblank line); cbn [length] in *; lia. }
    exists (new1 ++ new2). rewrite Happs', Happs, <- app_assoc.
    split; [done|]. split.
    + rewrite length_app. destruct (nonblank line); cbn [length] in *; lia.
    + by apply Forall_app.
Qed.

(** X1.  The loop makes at most two requests for each line that is not
    blank, and none for the blank ones. *)
Theorem fetch_requests_bounded (E : Env) (repos : list string) (L : Loop) :
  (nreq (world L) <= nreq (world (fetch_all E repos L))
   <= nreq (world L) + 2 * length (List.filter nonblank repos))%nat.
Proof. apply fetch_all_steps. Qed.

(** X2.  The loop over the repositories never writes to the file system,
    whatever the API answers. *)
Theorem fetch_keeps_file_system (E : Env) (repos : list string) (L : Loop) :
  fs (world (fetch_all E repos L)) = fs (world L).
Proof. apply fetch_all_steps. Qed.

(** X3.  The loop only appends to the list of available applications:
    what was in the list stays, in place, and at most one entry is added
    for each line that is not blank. *)
Theorem available_list_grows_at_end (E : Env) (repos : list string) (L : Loop) :
  exists new,
    availableApps (fetch_all E repos L) = availableApps L ++ new
    /\ (length new <= length (List.filter nonblank repos))%nat.
Proof.
  destruct (fetch_all_steps E repos L) as (_ & _ & new & Happs & Hlen & _).
  by exists new.
Qed.

(** X4.  Every application [main] offers fits the platform: its name
    contains both [runtime.GOOS] and [runtime.GOARCH]. *)
Theorem offered_apps_fit_platform (E : Env) (data : string) (st : State) :
  Forall (app_matches E) (availableApps (fetched E data st)).
Proof.
  unfold fetched.
  destruct (fetch_all_steps E (Split data "010") (mkLoop [] [] st))
    as (_ & _ & new & Happs & _ & Hall).
  by rewrite Happs.
Qed.

(** ** Trimming *)

Lemma existsb_eqb_In (w : string) (l : list string) :
  existsb (String.eqb w) l = true -> In w l.
Proof.
  intros H. apply existsb_exists in H as (x & Hin & Heq).
  apply String.eqb_eq in Heq. by subst.
Qed.

(** No byte of a multi-byte white-space character is white space itself,
    and no two-byte one begins or ends a three-byte one. *)
Lemma isSpace2_inv (c1 c2 : ascii) :
  isSpace2 c1 c2 = true -> isSpace c1 = false /\ isSpace c2 = false.
Proof.
  intros H. apply existsb_eqb_In in H. vm_compute in H.
  destruct_or!; try done; simplify_eq; by vm_compute.
Qed.

Lemma isSpace3_inv (c1 c2 c3 : ascii) :
  isSpace3 c1 c2 c3 = true ->
  isSpace c1 = false /\ isSpace2 c1 c2 = false
  /\ isSpace c3 = false /\ isSpace2 c2 c3 = false.
Proof.
  intros H. apply existsb_eqb_In in H. vm_compute in H.
  destruct_or!; try done; simplify_eq; by vm_compute.
Qed.

Lemma TrimLeftSpace_blank_app (b t : string) :
  blank b -> TrimLeftSpace (b +:+ t) = TrimLeftSpace t.
Proof.
  induction 1 as [|c s Hc _ IH|c1 c2 s H2 _ IH|c1 c2 c3 s H3 _ IH];
    [done|..]; rewrite ?append_cons; cbn [TrimLeftSpace].
  - by rewrite Hc.
  - destruct (isSpace2_inv _ _ H2) as [-> _]. by rewrite H2.
  - destruct (isSpace3_inv _ _ _ H3) as (-> & -> & _). by rewrite H3.
Qed.

Lemma TrimLeftSpace_fixed (s : string) :
  headSpace s = false -> TrimLeftSpace s = s.
Proof.
  destruct s as [|c1 [|c2 [|c3 s3]]]; cbn [headSpace TrimLeftSpace]; [done|..];
    destruct (isSpace c1); try done;
    destruct (isSpace2 c1 c2); try done;
    by destruct (isSpace3 c1 c2 c3).
Qed.

(** [TrimLeftSpace] takes white space off the front, and all of it. *)
Lemma TrimLeftSpace_split (s : string) :
  exists b, blank b /\ s = b +:+ TrimLeftSpace s
            /\ headSpace (TrimLeftSpace s) = false.
Proof.
  remember (String.length s) as n eqn:Hn. revert s Hn.
  induction n as [n IH] using lt_wf_ind. intros s Hn.
  destruct s as [|c1 s1]; [exists ""; repeat split; constructor|].
  cbn [TrimLeftSpace]. cbn [String.length] in Hn.
  destruct (isSpace c1) eqn:H1.
  { destruct (IH (String.length s1) ltac:(lia) s1 eq_refl) as (b & Hb & Hs & Hh).
    exists (String c1 b). rewrite append_cons, <- Hs.
    repeat split; [by constructor | done]. }
  destruct s1 as [|c2 s2].
  { exists "". repeat split; [constructor|]. cbn [headSpace]. by rewrite H1. }
  cbn [String.length] in Hn.
  destruct (isSpace2 c1 c2) eqn:H2.
  { destruct (IH (String.length s2) ltac:(lia) s2 eq_refl) as (b & Hb & Hs & Hh).
    exists (String c1 (String c2 b)). rewrite !append_cons, <- Hs.
    repeat split; [by constructor | done]. }
  destruct s2 as [|c3 s3].
  { exists "". repeat split; [constructor|]. cbn [headSpace]. by rewrite H1, H2. }
  cbn [String.length] in Hn.
  destruct (isSpace3 c1 c2 c3) eqn:H3.
  { destruct (IH (String.length s3) ltac:(lia) s3 eq_refl) as (b & Hb & Hs & Hh).
    exists (String c1 (String c2 (String c3 b))). rewrite !append_cons, <- Hs.
    repeat split; [by constructor | done]. }
  exists "". repeat split; [constructor|]. cbn [headSpace]. by rewrite H1, H2, H3.
Qed.

Lemma TrimRightSpace_cons (c : ascii) (s : string) :
  TrimRightSpace (String c s)
  = match TrimRightSpace s with
    | EmptyString => if isSpace c then EmptyString else String c EmptyString
    | String c2 EmptyString =>
        if isSpace2 c c2 then EmptyString else String c (String c2 EmptyString)
    | String c2 (String c3 EmptyString) =>
        if isSpace3 c c2 c3 then EmptyString
        else String c (String c2 (String c3 EmptyString))
    | t => String c t
    end.
Proof. reflexivity. Qed.

(** What [TrimRightSpace] returns is the empty string or the byte in hand
    in front of what the tail returned. *)
Lemma TrimRightSpace_cons_cases (c : ascii) (s : string) :
  TrimRightSpace (String c s) = ""
  \/ TrimRightSpace (String c s) = String c (TrimRightSpace s).
Proof.
  rewrite TrimRightSpace_cons.
  destruct (TrimRightSpace s) as [|c2 [|c3 [|c4 t]]]; [| | |by right].
  - destruct (isSpace c); [by left | by right].
  - destruct (isSpace2 c c2); [by left | by right].
  - destruct (isSpace3 c c2 c3); [by left | by right].
Qed.

Lemma append_nil_r (s : string) : s +:+ "" = s.
Proof. induction s as [|c s IH]; [done|]. by rewrite append_cons, IH. Qed.

(** [TrimRightSpace] takes white space off the end. *)
Lemma TrimRightSpace_split (s : string) :
  exists w, blank w /\ s = TrimRightSpace s +:+ w.
Proof.
  induction s as [|c s (w & Hw & Hs)]; [exists ""; split; [constructor | done]|].
  rewrite TrimRightSpace_cons.
  destruct (TrimRightSpace s) as [|c2 [|c3 [|c4 t]]] eqn:Ht.
  - cbn in Hs. subst s. destruct (isSpace c) eqn:Hc.
    + exists (String c w). split; [by constructor | done].
    + exists w. by split.
  - rewrite append_cons in Hs. cbn in Hs. subst s. destruct (isSpace2 c c2) eqn:H2.
    + exists (String c (String c2 w)). split; [by constructor | done].
    + exists w. by split.
  - rewrite !append_cons in Hs. cbn in Hs. subst s.
    destruct (isSpace3 c c2 c3) eqn:H3.
    + exists (String c (String c2 (String c3 w))). split; [by constructor | done].
    + exists w. by split.
  - exists w. split; [done|]. by rewrite append_cons, <- Hs.
Qed.

Lemma TrimRightSpace_idem (s : string) :
  TrimRightSpace (TrimRightSpace s) = TrimRightSpace s.
Proof.
  induction s as [|c s IH]; [done|].
  destruct (TrimRightSpace_cons_cases c s) as [-> | Hcons]; [done|].
  rewrite Hcons, TrimRightSpace_cons, IH, <- TrimRightSpace_cons. exact Hcons.
Qed.

Lemma TrimRightSpace_blank (w : string) : blank w -> TrimRightSpace w = "".
Proof.
  induction 1 as [|c s Hc _ IH|c1 c2 s H2 _ IH|c1 c2 c3 s H3 _ IH]; [done|..].
  - by rewrite TrimRightSpace_cons, IH, Hc.
  - destruct (isSpace2_inv _ _ H2) as [_ Hc2].
    by rewrite !TrimRightSpace_cons, IH, Hc2, H2.
  - destruct (isSpace3_inv _ _ _ H3) as (_ & _ & Hc3 & H23).
    by rewrite !TrimRightSpace_cons, IH, Hc3, H23, H3.
Qed.

Lemma TrimRightSpace_app (s post : string) :
  TrimRightSpace post = "" -> TrimRightSpace (s +:+ post) = TrimRightSpace s.
Proof.
  intros Hpost. induction s as [|c s IH]; [exact Hpost|].
  by rewrite append_cons, !TrimRightSpace_cons, IH.
Qed.

Lemma headSpace_prefix (v w : string) :
  headSpace v = true -> headSpace (v +:+ w) = true.
Proof.
  destruct v as [|c1 [|c2 [|c3 v3]]]; rewrite ?append_cons; cbn [headSpace];
    [done|..]; destruct (isSpace c1); try done; cbn [orb].
  destruct (isSpace2 c1 c2); [done | discriminate].
Qed.

Lemma blank_app (a b : string) : blank a -> blank b -> blank (a +:+ b).
Proof.
  induction 1 as [|c s Hc _ IH|c1 c2 s H2 _ IH|c1 c2 c3 s H3 _ IH];
    intros Hb; rewrite ?append_cons; [done|..].
  - apply blank_1; auto.
  - apply blank_2; auto.
  - apply blank_3; auto.
Qed.

(** The string [TrimSpace] returns has no white space at either end. *)
Lemma TrimSpace_clean (s : string) :
  headSpace (TrimSpace s) = false
  /\ TrimRightSpace (TrimSpace s) = TrimSpace s.
Proof.
  unfold TrimSpace. split; [|apply TrimRightSpace_idem].
  destruct (TrimLeftSpace_split s) as (_ & _ & _ & Hhead).
  destruct (TrimRightSpace_split (TrimLeftSpace s)) as (w & _ & Hsplit).
  destruct (headSpace (TrimRightSpace (TrimLeftSpace s))) eqn:Hv; [|done].
  apply (headSpace_prefix _ w) in Hv. rewrite <- Hsplit in Hv. congruence.
Qed.

(** What [TrimSpace] takes away is white space: the string is the result
    between two blank strings. *)
Lemma TrimSpace_split (s : string) :
  exists b w, blank b /\ blank w /\ s = b +:+ TrimSpace s +:+ w.
Proof.
  destruct (TrimLeftSpace_split s) as (b & Hb & Hs & _).
  destruct (TrimRightSpace_split (TrimLeftSpace s)) as (w & Hw & Hu).
  exists b, w. unfold TrimSpace. by rewrite <- Hu.
Qed.

Lemma TrimSpace_idem (s : string) : TrimSpace (TrimSpace s) = TrimSpace s.
Proof.
  destruct (TrimSpace_clean s) as [Hhead Hright].
  unfold TrimSpace at 1. by rewrite (TrimLeftSpace_fixed _ Hhead).
Qed.

Lemma TrimSpace_empty_blank (s : string) : TrimSpace s = "" -> blank s.
Proof.
  intros H. destruct (TrimSpace_split s) as (b & w & Hb & Hw & Hs).
  rewrite H in Hs. rewrite Hs. by apply blank_app.
Qed.

Lemma length_append (a b : string) :
  String.length (a +:+ b) = (String.length a + String.length b)%nat.
Proof.
  induction a as [|c a IH]; [done|]. rewrite append_cons. cbn [String.length]. lia.
Qed.

(** The string [TrimSpace] returns does not end in white space. *)
Lemma TrimSpace_ends_clean (s s0 w : string) :
  TrimSpace s = s0 +:+ w -> blank w -> w = "".
Proof.
  intros Hr Hw.
  destruct (TrimSpace_clean s) as [_ Hfix]. rewrite Hr in Hfix.
  rewrite (TrimRightSpace_app _ _ (TrimRightSpace_blank _ Hw)) in Hfix.
  destruct (TrimRightSpace_split s0) as (w' & _ & Hs0).
  apply (f_equal String.length) in Hs0. rewrite Hfix, !length_append in Hs0.
  destruct w; [done|]. cbn [String.length] in Hs0. lia.
Qed.

(** X5.  White space around a line of the list file does not matter: the
    iteration for a line is the iteration for the trimmed line. *)
Theorem fetch_repo_trimmed (E : Env) (line : string) (L : Loop) :
  fetch_repo E line L = fetch_repo E (TrimSpace line) L.
Proof. unfold fetch_repo. by rewrite TrimSpace_idem. Qed.

(** ** The downloader once more (lines 154-156 and 170-206) *)

Lemma downloadAndStore_one_line (E : Env) (url dir : string) (st : State) :
  exists text, stdout (downloadAndStore E url dir st) = stdout st ++ [text].
Proof.
  unfold downloadAndStore, Get.
  destruct (http_Get E (nreq st) url) as [e|code body rerr]; [by eexists|].
  destruct (Index (filepath.Base url) "-v" =? -1).
  { rewrite run_deferred_stdout. by eexists. }
  cbn [fs acquire set_fs].
  destruct (os.Create E (fs st) _) as [fs1|e].
  2: { rewrite run_deferred_stdout. by eexists. }
  destruct (io_Copy E fs1 _ body rerr) as [fs2 [e|]].
  { rewrite run_deferred_stdout. by eexists. }
  cbn [fs set_fs].
  destruct (os.Chmod E fs2 _ 493); rewrite run_deferred_stdout; by eexists.
Qed.

Lemma download_all_releases (E : Env) (apps : list appInfo) (dir : string)
    (st : State) :
  opened (download_all E apps dir st) = opened st.
Proof.
  unfold download_all. revert st.
  induction apps as [|app apps IH]; intros st; [done|].
  cbn [fold_left]. by rewrite IH, downloadAndStore_releases.
Qed.

(** X6.  The downloader leaves no resource open: after one download, and
    after the whole download loop, exactly the handles that were open
    before are open, on every path through the function. *)
Theorem download_closes_what_it_opens (E : Env) (apps : list appInfo)
    (dir : string) (st : State) :
  (forall url, opened (downloadAndStore E url dir st) = opened st)
  /\ opened (download_all E apps dir st) = opened st.
Proof.
  split; [intros url; apply downloadAndStore_releases|].
  apply download_all_releases.
Qed.

(** X7.  Every application of the list is attempted, whatever happened to
    the ones before it: the download loop makes exactly one request and
    prints exactly one text for each. *)
Theorem download_attempts_every_app (E : Env) (apps : list appInfo)
    (dir : string) (st : State) :
  nreq (download_all E apps dir st) = (nreq st + length apps)%nat
  /\ exists texts,
       stdout (download_all E apps dir st) = stdout st ++ texts
       /\ length texts = length apps.
Proof.
  split; [apply download_all_nreq|].
  unfold download_all. revert st.
  induction apps as [|app apps IH]; intros st.
  - exists []. by rewrite app_nil_r.
  - cbn [fold_left].
    destruct (IH (downloadAndStore E (DownloadURL app) dir st)) as (texts & Hout & Hlen).
    destruct (downloadAndStore_one_line E (DownloadURL app) dir st) as [text Htext].
    exists (text :: texts). rewrite Hout, Htext, <- app_assoc.
    split; [done | simpl; lia].
Qed.

(** X8.  Nothing is rolled back: when the body of the response breaks off
    with a read error, the target keeps the bytes received so far, and its
    mode is the one [os.Create] left (that of the file it replaced, or
    0666 less the umask for a new file): line 199 is not reached, so the
    file is not made 0755. *)
Theorem interrupted_download_keeps_partial_file (E : Env) (url dir : string)
    (st : State) (code : Z) (body e : string) :
  let filename := filepath.Base url in
  let target := filepath_Join E dir
                  (substring 0 (Z.to_nat (Index filename "-v")) filename) in
  http_Get E (nreq st) url = Resp code body (Some e) ->
  Index filename "-v" <> -1 ->
  fault E OpCreate target = None ->
  fault E OpWrite target = None ->
  (forall perm, fs st !! target <> Some (Dir perm)) ->
  fs (downloadAndStore E url dir st)
  = <[target := File body match fs st !! target with
                          | Some (File _ perm) => perm
                          | _ => Z.land 438 (Z.lnot (umask E))
                          end]> (fs st)
  /\ stdout (downloadAndStore E url dir st)
     = stdout st ++ [fmt.Println ["Failed to write file:"; e]].
Proof.
  intros filename target Hget Hidx Hc Hw Hdir.
  unfold downloadAndStore, Get. rewrite Hget.
  fold filename. apply Z.eqb_neq in Hidx. rewrite Hidx. fold target.
  unfold os.Create. rewrite Hc. cbn [fs acquire set_fs].
  destruct (fs st !! target) as [[perm|old perm]|] eqn:Hlook.
  - by destruct (Hdir perm).
  - unfold io_Copy, os.Write. rewrite Hw, lookup_insert_eq, insert_insert_eq.
    rewrite run_deferred_fs, run_deferred_stdout. by cbn.
  - unfold io_Copy, os.Write. rewrite Hw, lookup_insert_eq, insert_insert_eq.
    rewrite run_deferred_fs, run_deferred_stdout. by cbn.
Qed.

Lemma interrupted_download_keeps_partial_file_witness :
  fs (downloadAndStore
        (Examples.linux_env "" (fun _ _ => Resp 200 "EL" (Some "unexpected EOF")))
        "https://dl.example/tool-v2.0.0-linux-amd64" "/home/u/.donut-utils"
        (Examples.start ∅))
  = <["/home/u/.donut-utils/tool" := File "EL" 420]> ∅
  /\ fs (downloadAndStore
           (Examples.linux_env "" (fun _ _ => Resp 200 "EL" (Some "unexpected EOF")))
           "https://dl.example/tool-v2.0.0-linux-amd64" "/home/u/.donut-utils"
           (Examples.start (<["/home/u/.donut-utils/tool" := File "OLD TOOL" 448]> ∅)))
     = <["/home/u/.donut-utils/tool" := File "EL" 448]>
         (<["/home/u/.donut-utils/tool" := File "OLD TOOL" 448]> ∅)
  /\ stdout (downloadAndStore
               (Examples.linux_env "" (fun _ _ => Resp 200 "EL" (Some "unexpected EOF")))
               "https://dl.example/tool-v2.0.0-linux-amd64" "/home/u/.donut-utils"
               (Examples.start ∅))
     = [fmt.Println ["Failed to write file:"; "unexpected EOF"]].
Proof.
  assert (Index (filepath.Base "https://dl.example/tool-v2.0.0-linux-amd64") "-v" <> -1)
    as Hidx by (vm_compute; discriminate).
  pose proof (interrupted_download_keeps_partial_file
                (Examples.linux_env "" (fun _ _ => Resp 200 "EL" (Some "unexpected EOF")))
                "https://dl.example/tool-v2.0.0-linux-amd64" "/home/u/.donut-utils"
                (Examples.start ∅) 200 "EL" "unexpected EOF"
                eq_refl Hidx eq_refl eq_refl) as Hnew.
  pose proof (interrupted_download_keeps_partial_file
                (Examples.linux_env "" (fun _ _ => Resp 200 "EL" (Some "unexpected EOF")))
                "https://dl.example/tool-v2.0.0-linux-amd64" "/home/u/.donut-utils"
                (Examples.start (<["/home/u/.donut-utils/tool" := File "OLD TOOL" 448]> ∅))
                200 "EL" "unexpected EOF" eq_refl Hidx eq_refl eq_refl) as Hold.
  destruct Hnew as [Hnew Hout]; [intros perm; vm_compute; discriminate|].
  destruct Hold as [Hold _]; [intros perm; vm_compute; discriminate|].
  split; [exact Hnew|]. split; [exact Hold | exact Hout].
Defined.

(** ** The name of the downloaded file (lines 178-185) *)

Lemma string_append_assoc (a b c : string) : (a +:+ b) +:+ c = a +:+ b +:+ c.
Proof.
  induction a as [|x a IH]; [done|]. rewrite !append_cons. by rewrite IH.
Qed.

Lemma Contains_separator_cons (c : ascii) (s : string) :
  Contains (String c s) "/" = filepath.IsPathSeparator c || Contains s "/".
Proof.
  apply Bool.eq_iff_eq_true.
  rewrite orb_true_iff, !Contains_spec. unfold filepath.IsPathSeparator.
  rewrite Ascii.eqb_eq. split.
  - intros ([|a p] & q & Hpq).
    + left. change ("" +:+ "/" +:+ q) with (String "/" q) in Hpq. congruence.
    + right. exists p, q. rewrite append_cons in Hpq. congruence.
  - intros [-> | (p & q & ->)].
    + by exists "", s.
    + by exists (String c p), q.
Qed.

Lemma lastElement_no_separator (path : string) :
  Contains (filepath.lastElement path) "/" = false.
Proof.
  induction path as [|c p IH]; [done|].
  cbn [filepath.lastElement].
  destruct (Contains p "/") eqn:Hp; [done|].
  destruct (filepath.IsPathSeparator c) eqn:Hc; [done|].
  by rewrite Contains_separator_cons, Hc, Hp.
Qed.

Lemma Base_no_separator (path : string) :
  filepath.Base path = "/" \/ Contains (filepath.Base path) "/" = false.
Proof.
  unfold filepath.Base.
  destruct (String.eqb path ""); [by right|].
  destruct (String.eqb (filepath.lastElement (filepath.stripTrailing path)) "");
    [by left|].
  right. apply lastElement_no_separator.
Qed.

(** X9.  The application name cut from a URL never contains the path
    separator [/]: whatever the URL, the name is a single path element.
    (It can still be empty, ["."] or [".."].) *)
Theorem app_name_has_no_separator (url : string) :
  Index (filepath.Base url) "-v" <> -1 ->
  Contains (substring 0 (Z.to_nat (Index (filepath.Base url) "-v")) (filepath.Base url))
           "/" = false.
Proof.
  intros Hidx.
  destruct (Index_spec (filepath.Base url) "-v") as [[Hm _] | (p & [q Hq] & Hi & _)];
    [done|].
  rewrite Hi, Nat2Z.id. rewrite Hq, substring_prefix.
  destruct (Base_no_separator url) as [Hroot | Hnone].
  - rewrite Hroot in Hidx. by vm_compute in Hidx.
  - destruct (Contains p "/") eqn:Hp; [|done].
    apply Contains_spec in Hp as (a & b & ->).
    assert (Contains (filepath.Base url) "/" = true) as Hyes; [|congruence].
    apply Contains_spec. exists a, (b +:+ "-v" +:+ q).
    by rewrite Hq, !string_append_assoc.
Qed.

Lemma app_name_has_no_separator_witness :
  Contains (substring 0
              (Z.to_nat (Index (filepath.Base "https://dl.example/a/../tool-v1-linux") "-v"))
              (filepath.Base "https://dl.example/a/../tool-v1-linux"))
           "/" = false.
Proof.
  apply app_name_has_no_separator. vm_compute. discriminate.
Defined.

(** ** PATH registration once more (lines 158-168 and 208-246) *)

(** What [addToPath] does to one path of the file system: nothing, unless
    the path is the selected profile and holds a file, which then grows by
    the export line. *)
Lemma addToPath_lookup (E : Env) (dir : string) (st : State) (path : string) :
  fs (addToPath E dir st) !! path = fs st !! path
  \/ exists HomeDir shellrc old perm,
       supported_shellrc E = Some shellrc
       /\ user_Current E = Ok HomeDir
       /\ path = filepath_Join E HomeDir shellrc
       /\ fs st !! path = Some (File old perm)
       /\ fs (addToPath E dir st) !! path = Some (File (old +:+ export_line dir) perm).
Proof.
  unfold addToPath.
  destruct (supported_shellrc E) as [shellrc|] eqn:Hsh; [|by left].
  destruct (user_Current E) as [home|e] eqn:Hu; [|by left].
  unfold os.OpenFile_append.
  destruct (fault E OpOpenFile (filepath_Join E home shellrc)); [by left|].
  destruct (fs st !! filepath_Join E home shellrc) as [[perm|old perm]|] eqn:Hlook;
    [by left | | by left].
  cbn [fs acquire]. unfold os.Write.
  destruct (fault E OpWrite (filepath_Join E home shellrc)).
  { left. by rewrite run_deferred_fs. }
  rewrite Hlook, run_deferred_fs. cbn [fs set_fs println print].
  destruct (decide (path = filepath_Join E home shellrc)) as [->|Hne].
  - right. exists home, shellrc, old, perm. by rewrite lookup_insert_eq.
  - left. by rewrite lookup_insert_ne.
Qed.

(** X10.  [addToPath] never creates a file: a path that does not exist
    before the call does not exist after it.  In particular a missing
    shell profile stays missing (the open has no [O_CREATE]) and the
    failure to open it is reported. *)
Theorem addToPath_never_creates (E : Env) (dir : string) (st : State) :
  (forall path, fs st !! path = None -> fs (addToPath E dir st) !! path = None)
  /\ (forall HomeDir shellrc,
        supported_shellrc E = Some shellrc ->
        user_Current E = Ok HomeDir ->
        fs st !! filepath_Join E HomeDir shellrc = None ->
        fs (addToPath E dir st) = fs st
        /\ exists e, stdout (addToPath E dir st)
                     = stdout st ++ [fmt.Println ["Failed to open shellrc file:"; e]]).
Proof.
  split.
  - intros path Hnone.
    destruct (addToPath_lookup E dir st path)
      as [-> | (h & rc & old & perm & _ & _ & _ & Hold & _)]; [done | congruence].
  - intros home shellrc Hsh Hu Hnone. unfold addToPath.
    rewrite Hsh, Hu. unfold os.OpenFile_append. rewrite Hnone.
    destruct (fault E OpOpenFile (filepath_Join E home shellrc));
      (split; [done | by eexists]).
Qed.

Lemma addToPath_never_creates_witness :
  fs (addToPath (Examples.linux_env "" Examples.acme_http) "/home/u/.donut-utils"
        (Examples.start ∅)) = ∅
  /\ exists e,
       stdout (addToPath (Examples.linux_env "" Examples.acme_http)
                 "/home/u/.donut-utils" (Examples.start ∅))
       = [] ++ [fmt.Println ["Failed to open shellrc file:"; e]].
Proof.
  exact (proj2 (addToPath_never_creates (Examples.linux_env "" Examples.acme_http)
                  "/home/u/.donut-utils" (Examples.start ∅))
           "/home/u" ".bashrc" eq_refl eq_refl eq_refl).
Defined.

(** X11.  [addToPath] only ever appends: every path that exists keeps its
    node, except the selected profile, whose old content stays in front of
    the export line and whose mode is kept. *)
Theorem addToPath_only_appends (E : Env) (dir : string) (st : State)
    (path : string) (node : Node) :
  fs st !! path = Some node ->
  fs (addToPath E dir st) !! path = Some node
  \/ exists HomeDir shellrc old perm,
       supported_shellrc E = Some shellrc
       /\ user_Current E = Ok HomeDir
       /\ path = filepath_Join E HomeDir shellrc
       /\ node = File old perm
       /\ fs (addToPath E dir st) !! path
          = Some (File (old +:+ nl +:+ "export PATH=$PATH:" +:+ dir) perm).
Proof.
  intros Hnode.
  destruct (addToPath_lookup E dir st path)
    as [-> | (h & rc & old & perm & Hsh & Hu & Hp & Hold & Hnew)]; [by left|].
  right. exists h, rc, old, perm. repeat split; try done. congruence.
Qed.

Lemma addToPath_only_appends_witness :
  fs (addToPath (Examples.linux_env "" Examples.acme_http) "/home/u/.donut-utils"
        (Examples.start (Examples.home_fs "acme/tool")))
  !! ReposList = Some (File "acme/tool" 420).
Proof.
  destruct (addToPath_only_appends (Examples.linux_env "" Examples.acme_http)
              "/home/u/.donut-utils" (Examples.start (Examples.home_fs "acme/tool"))
              ReposList (File "acme/tool" 420) eq_refl)
    as [Hsame | (h & rc & old & perm & Hsh & Hu & Hp & _)]; [exact Hsame|].
  exfalso. injection Hsh as <-. injection Hu as <-. by vm_compute in Hp.
Defined.

Lemma register_path_releases (E : Env) (dir : string) (st : State) :
  opened (addToPath E dir st) = opened st
  /\ opened (register_path E dir st) = opened st.
Proof.
  split; [apply addToPath_releases|].
  unfold register_path. destruct (String.eqb (GOOS E) "windows"); [done|].
  cbn [opened println print]. apply addToPath_releases.
Qed.

(** X12.  The PATH step leaves no resource open, on Windows and elsewhere,
    whether the profile could be written or not. *)
Theorem path_step_closes_what_it_opens (E : Env) (dir : string) (st : State) :
  opened (addToPath E dir st) = opened st
  /\ opened (register_path E dir st) = opened st.
Proof. apply register_path_releases. Qed.

(** ** No path is ever removed *)

Lemma keeps_paths_refl (fs : gmap string Node) : keeps_paths fs fs.
Proof. by intros path. Qed.

Lemma keeps_paths_trans (fs1 fs2 fs3 : gmap string Node) :
  keeps_paths fs1 fs2 -> keeps_paths fs2 fs3 -> keeps_paths fs1 fs3.
Proof. intros H12 H23 path H. by apply H23, H12. Qed.

Lemma keeps_paths_insert (fs : gmap string Node) (name : string) (node : Node) :
  keeps_paths fs (<[name := node]> fs).
Proof.
  intros path H. destruct (decide (name = path)) as [->|Hne].
  - rewrite lookup_insert_eq. by eexists.
  - by rewrite lookup_insert_ne.
Qed.

Lemma MkdirAll_keeps (E : Env) (fs fs' : gmap string Node) (path : string) (perm : Z) :
  os.MkdirAll E fs path perm = Ok fs' -> keeps_paths fs fs'.
Proof.
  unfold os.MkdirAll. destruct (fault E OpMkdirAll path); [done|].
  destruct (fs !! path) as [[?|? ?]|]; intros H; simplify_eq;
    [apply keeps_paths_refl | apply keeps_paths_insert].
Qed.

Lemma Create_keeps (E : Env) (fs fs' : gmap string Node) (name : string) :
  os.Create E fs name = Ok fs' -> keeps_paths fs fs'.
Proof.
  unfold os.Create. destruct (fault E OpCreate name); [done|].
  destruct (fs !! name) as [[?|? ?]|]; intros H; simplify_eq;
    apply keeps_paths_insert.
Qed.

Lemma io_Copy_keeps (E : Env) (fs fs' : gmap string Node) (name body : string)
    (rerr err : option string) :
  io_Copy E fs name body rerr = (fs', err) -> keeps_paths fs fs'.
Proof.
  unfold io_Copy, os.Write. destruct (fault E OpWrite name).
  { intros H; simplify_eq. apply keeps_paths_refl. }
  destruct (fs !! name) as [[?|? ?]|]; intros H; simplify_eq;
    [apply keeps_paths_refl | apply keeps_paths_insert | apply keeps_paths_refl].
Qed.

Lemma Chmod_keeps (E : Env) (fs fs' : gmap string Node) (name : string) (perm : Z) :
  os.Chmod E fs name perm = Ok fs' -> keeps_paths fs fs'.
Proof.
  unfold os.Chmod. destruct (fault E OpChmod name); [done|].
  destruct (fs !! name) as [[?|? ?]|]; intros H; simplify_eq;
    apply keeps_paths_insert.
Qed.

Lemma downloadAndStore_keeps (E : Env) (url dir : string) (st : State) :
  keeps_paths (fs st) (fs (downloadAndStore E url dir st)).
Proof.
  unfold downloadAndStore, Get.
  destruct (http_Get E (nreq st) url) as [e|code body rerr];
    [apply keeps_paths_refl|].
  destruct (Index (filepath.Base url) "-v" =? -1).
  { rewrite run_deferred_fs. apply keeps_paths_refl. }
  cbn [fs acquire set_fs].
  destruct (os.Create E (fs st) _) as [fs1|e] eqn:Hc.
  2: { rewrite run_deferred_fs. apply keeps_paths_refl. }
  apply Create_keeps in Hc.
  destruct (io_Copy E fs1 _ body rerr) as [fs2 err] eqn:Hcopy.
  apply io_Copy_keeps in Hcopy.
  destruct err as [e|].
  { rewrite run_deferred_fs. cbn [fs set_fs println print].
    by apply keeps_paths_trans with fs1. }
  cbn [fs set_fs].
  destruct (os.Chmod E fs2 _ 493) as [fs3|e] eqn:Hm;
    rewrite run_deferred_fs; cbn [fs set_fs println print].
  - apply Chmod_keeps in Hm.
    apply keeps_paths_trans with fs1; [done|]. by apply keeps_paths_trans with fs2.
  - by apply keeps_paths_trans with fs1.
Qed.

Lemma download_all_keeps (E : Env) (apps : list appInfo) (dir : string) (st : State) :
  keeps_paths (fs st) (fs (download_all E apps dir st)).
Proof.
  unfold download_all. revert st.
  induction apps as [|app apps IH]; intros st; [apply keeps_paths_refl|].
  cbn [fold_left].
  eapply keeps_paths_trans; [apply downloadAndStore_keeps | apply IH].
Qed.

Lemma addToPath_keeps (E : Env) (dir : string) (st : State) :
  keeps_paths (fs st) (fs (addToPath E dir st)).
Proof.
  intros path H.
  destruct (addToPath_lookup E dir st path)
    as [-> | (h & rc & old & perm & _ & _ & _ & _ & ->)]; [done | by eexists].
Qed.

Lemma register_path_keeps (E : Env) (dir : string) (st : State) :
  keeps_paths (fs st) (fs (register_path E dir st)).
Proof.
  unfold register_path. destruct (String.eqb (GOOS E) "windows");
    [apply keeps_paths_refl|].
  cbn [fs println print]. apply addToPath_keeps.
Qed.

Lemma list_apps_keeps_state (i : Z) (apps : list appInfo) (st : State) :
  fs (list_apps i apps st) = fs st
  /\ nreq (list_apps i apps st) = nreq st
  /\ opened (list_apps i apps st) = opened st.
Proof.
  revert i st. induction apps as [|app apps IH]; intros i st; [done|].
  cbn [list_apps]. by destruct (IH (i + 1) (print (nl +:+ Itoa (i + 1) +:+ ". Name: "
    +:+ Name app +:+ nl +:+ "Description: " +:+ Description app +:+ nl) st))
    as (-> & -> & ->).
Qed.

Lemma show_available_keeps_state (apps : list appInfo) (st : State) :
  fs (show_available apps st) = fs st
  /\ nreq (show_available apps st) = nreq st
  /\ opened (show_available apps st) = opened st.
Proof.
  unfold show_available. cbn [fs nreq opened println print].
  apply (list_apps_keeps_state 0 apps
           (println [nl +:+ nl +:+ nl +:+
                     "The following applications are available for your system:"] st)).
Qed.

(** X13.  A run of [main] never removes anything: every path that exists
    when the program starts exists when it returns, whichever way it
    returns and whatever was downloaded. *)
Theorem main_never_removes_a_path (E : Env) (st : State) :
  keeps_paths (fs st) (fs (snd (main E st))).
Proof.
  unfold main. cbn [fs println print].
  destruct (os.ReadFile E (fs st) ReposList) as [data|e]; [|apply keeps_paths_refl].
  destruct (user_Current E) as [home|e]; [|apply keeps_paths_refl].
  destruct (os.MkdirAll E (fs st) (filepath_Join E home DownloadDir) 493)
    as [fs1|e] eqn:Hm; [|apply keeps_paths_refl].
  apply MkdirAll_keeps in Hm.
  set (L := fetch_all E _ _).
  assert (fs (show_available (availableApps L) (world L)) = fs1) as Hasked.
  { rewrite (proj1 (show_available_keeps_state _ _)). subst L.
    by rewrite (proj1 (fetch_all_steps _ _ _)). }
  destruct (ReadString (Stdin E) "010") as [line|e]; cbn [snd].
  - rewrite run_deferred_fs.
    eapply keeps_paths_trans; [|apply register_path_keeps].
    destruct (confirmed line).
    + eapply keeps_paths_trans; [|apply download_all_keeps]. by rewrite Hasked.
    + by rewrite Hasked.
  - rewrite run_deferred_fs. cbn [fs println print]. by rewrite Hasked.
Qed.

Lemma main_never_removes_a_path_witness :
  is_Some (fs (snd (main (Examples.linux_env ("yes" +:+ nl) Examples.acme_http)
                      (Examples.start (Examples.home_fs "acme/tool"))))
           !! "/home/u/.bashrc").
Proof.
  apply (main_never_removes_a_path
           (Examples.linux_env ("yes" +:+ nl) Examples.acme_http)
           (Examples.start (Examples.home_fs "acme/tool")) "/home/u/.bashrc").
  by eexists.
Defined.

(** ** The list shown to the user (lines 139-143) *)

Lemma list_apps_stdout (i : Z) (apps : list appInfo) (st : State) :
  stdout (list_apps i apps st)
  = stdout st ++
    imap (fun k app => nl +:+ Itoa (i + Z.of_nat k + 1) +:+ ". Name: " +:+ Name app
                       +:+ nl +:+ "Description: " +:+ Description app +:+ nl) apps.
Proof.
  revert i st. induction apps as [|app apps IH]; intros i st.
  - by rewrite app_nil_r.
  - cbn [list_apps imap]. rewrite IH. cbn [stdout print].
    rewrite <- app_assoc. cbn [List.app]. rewrite Z.add_0_r. do 2 f_equal.
    apply imap_ext. intros k app' _. unfold compose. do 3 f_equal. lia.
Qed.

(** X14.  What the user is shown before the question: the heading, then
    one text per available application, in the order of the list and
    numbered 1, 2, 3, ..., then the question. *)
Theorem show_available_numbers_from_one (apps : list appInfo) (st : State) :
  stdout (show_available apps st)
  = stdout st
    ++ [fmt.Println [nl +:+ nl +:+ nl +:+
                     "The following applications are available for your system:"]]
    ++ imap (fun k app => nl +:+ Itoa (Z.of_nat k + 1) +:+ ". Name: " +:+ Name app
                          +:+ nl +:+ "Description: " +:+ Description app +:+ nl) apps
    ++ [fmt.Println [nl +:+ nl +:+
                     "Do you want to download these applications? (yes/no)"]].
Proof.
  unfold show_available. cbn [stdout println print].
  rewrite list_apps_stdout. cbn [stdout println print].
  by rewrite <- !app_assoc.
Qed.

(** ** Response bodies when every status is 200 *)

Lemma fetch_repo_tracks (E : Env) (line : string) (L : Loop) :
  always_200 E ->
  exists new,
    deferred (fetch_repo E line L) = new ++ deferred L
    /\ opened (world (fetch_repo E line L)) = new ++ opened (world L).
Proof.
  intros H200. unfold fetch_repo.
  destruct (String.eqb (TrimSpace line) ""); [by exists []|].
  unfold Get, skip.
  destruct (http_Get E (nreq (world L)) _) as [e|code body rerr] eqn:H1;
    [by exists []|].
  rewrite (H200 _ _ _ _ _ H1). cbn [negb Z.eqb Pos.eqb].
  destruct rerr as [e|]; [by exists [HBody (nreq (world L))]|].
  destruct (Unmarshal_repoInfo E body) as [description|e];
    [|by exists [HBody (nreq (world L))]].
  cbn [nreq acquire fs stdout opened].
  destruct (http_Get E (S (nreq (world L))) _) as [e|code2 body2 rerr2] eqn:H2;
    [by exists [HBody (nreq (world L))]|].
  rewrite (H200 _ _ _ _ _ H2). cbn [negb Z.eqb Pos.eqb].
  exists [HBody (S (nreq (world L))); HBody (nreq (world L))].
  destruct rerr2 as [e|]; [done|].
  by destruct (Unmarshal_release E body2).
Qed.

Lemma fetch_all_tracks (E : Env) (repos : list string) (L : Loop) :
  always_200 E ->
  exists new,
    deferred (fetch_all E repos L) = new ++ deferred L
    /\ opened (world (fetch_all E repos L)) = new ++ opened (world L).
Proof.
  intros H200. unfold fetch_all. revert L.
  induction repos as [|line repos IH]; intros L; [by exists []|].
  cbn [fold_left].
  destruct (fetch_repo_tracks E line L H200) as (new1 & Hd1 & Ho1).
  destruct (IH (fetch_repo E line L)) as (new2 & Hd2 & Ho2).
  exists (new2 ++ new1). by rewrite Hd2, Ho2, Hd1, Ho1, !app_assoc.
Qed.

Lemma run_deferred_closes (deferred rest : list Handle) (st : State) :
  opened st = deferred ++ rest -> opened (run_deferred deferred st) = rest.
Proof.
  unfold run_deferred. revert st.
  induction deferred as [|h l IH]; intros st Hst; [done|].
  cbn [fold_left]. apply IH. cbn [close opened].
  rewrite Hst. apply remove_first_head.
Qed.

(** X15.  When no response has a status other than 200, [main] returns
    with every resource closed again: the bodies deferred in the loop are
    all closed on return, at whichever [return] that is. *)
Theorem all_closed_on_return_when_always_200 (E : Env) (st : State) :
  always_200 E -> opened (snd (main E st)) = opened st.
Proof.
  intros H200. unfold main. cbn [fs println print].
  destruct (os.ReadFile E (fs st) ReposList) as [data|e]; [|done].
  destruct (user_Current E) as [home|e]; [|done].
  destruct (os.MkdirAll E (fs st) (filepath_Join E home DownloadDir) 493)
    as [fs1|e]; [|done].
  destruct (fetch_all_tracks E (Split data "010")
              (mkLoop [] []
                 (set_fs fs1 (println [introduction] (println [banner] st)))) H200)
    as (new & Hd & Ho).
  rewrite app_nil_r in Hd. cbn [world opened set_fs println print] in Ho.
  rewrite Hd.
  destruct (ReadString (Stdin E) "010") as [line|e]; cbn [snd];
    apply run_deferred_closes.
  - rewrite (proj2 (register_path_releases E _ _)).
    destruct (confirmed line).
    + rewrite (download_all_releases E), (proj2 (proj2 (show_available_keeps_state _ _))).
      exact Ho.
    + by rewrite (proj2 (proj2 (show_available_keeps_state _ _))).
  - cbn [opened println print].
    by rewrite (proj2 (proj2 (show_available_keeps_state _ _))).
Qed.

Lemma all_closed_on_return_when_always_200_witness :
  opened (snd (main (Examples.linux_env ("yes" +:+ nl)
                       (fun _ _ => Resp 200 "tool-v1-linux-amd64" None))
                    (Examples.start (Examples.home_fs "acme/tool"))))
  = [].
Proof.
  apply (all_closed_on_return_when_always_200
           (Examples.linux_env ("yes" +:+ nl)
              (fun _ _ => Resp 200 "tool-v1-linux-amd64" None))
           (Examples.start (Examples.home_fs "acme/tool"))).
  intros n url code body rerr H. by injection H as <- _ _.
Defined.

(** ** How many requests a run makes *)

(** X16.  A run makes at most three requests for each line of the list
    file that is not blank: two for the metadata and one for the download. *)
Theorem main_requests_bounded (E : Env) (st : State) (data : string) :
  os.ReadFile E (fs st) ReposList = Ok data ->
  (nreq (snd (main E st))
   <= nreq st + 3 * length (List.filter nonblank (Split data "010")))%nat.
Proof.
  intros Hread. unfold main. cbn [fs println print]. rewrite Hread.
  destruct (user_Current E) as [home|e]; [|cbn; lia].
  destruct (os.MkdirAll E (fs st) (filepath_Join E home DownloadDir) 493)
    as [fs1|e]; [|cbn; lia].
  destruct (fetch_all_steps E (Split data "010")
              (mkLoop [] []
                 (set_fs fs1 (println [introduction] (println [banner] st)))))
    as (_ & Hn & new & Happs & Hlen & _).
  cbn [world nreq set_fs println print availableApps] in Hn, Happs.
  cbn [List.app] in Happs.
  destruct (ReadString (Stdin E) "010") as [line|e]; cbn [snd];
    rewrite run_deferred_nreq.
  - rewrite register_path_nreq. destruct (confirmed line).
    + rewrite download_all_nreq, (proj1 (proj2 (show_available_keeps_state _ _))).
      rewrite Happs. lia.
    + rewrite (proj1 (proj2 (show_available_keeps_state _ _))). lia.
  - cbn [nreq println print].
    rewrite (proj1 (proj2 (show_available_keeps_state _ _))). lia.
Qed.

Lemma main_requests_bounded_witness :
  (nreq (snd (main (Examples.linux_env ("yes" +:+ nl) Examples.acme_http)
                (Examples.start (Examples.home_fs ("acme/tool" +:+ nl +:+ nl)))))
   <= 0 + 3 * 1)%nat.
Proof.
  apply (main_requests_bounded
           (Examples.linux_env ("yes" +:+ nl) Examples.acme_http)
           (Examples.start (Examples.home_fs ("acme/tool" +:+ nl +:+ nl)))
           ("acme/tool" +:+ nl +:+ nl)).
  reflexivity.
Defined.

(** ** The confirmation line (lines 145-153) *)

Lemma Contains_char_cons (d c : ascii) (s : string) :
  Contains (String c s) (String d "") = Ascii.eqb c d || Contains s (String d "").
Proof.
  apply Bool.eq_iff_eq_true.
  rewrite orb_true_iff, !Contains_spec, Ascii.eqb_eq. split.
  - intros ([|a p] & q & Hpq).
    + left. change ("" +:+ String d "" +:+ q) with (String d q) in Hpq. congruence.
    + right. exists p, q. rewrite append_cons in Hpq. congruence.
  - intros [-> | (p & q & ->)].
    + by exists "", s.
    + by exists (String c p), q.
Qed.

Lemma ReadString_without_delimiter (input : string) (delim : ascii) :
  Contains input (String delim "") = false -> ReadString input delim = Err "EOF".
Proof.
  induction input as [|c rest IH]; [done|].
  rewrite Contains_char_cons. intros H. apply orb_false_iff in H as [Hc Hrest].
  cbn [ReadString]. rewrite Hc, (IH Hrest). done.
Qed.

(** X17.  A standard input with no newline in it never confirms, not even
    when it reads "yes": the read fails with EOF, and [main] returns with
    the download directory created but nothing downloaded and no profile
    touched. *)
Theorem input_without_newline_aborts (E : Env) (st : State)
    (data HomeDir : string) (fs1 : gmap string Node) :
  os.ReadFile E (fs st) ReposList = Ok data ->
  user_Current E = Ok HomeDir ->
  os.MkdirAll E (fs st) (filepath_Join E HomeDir DownloadDir) 493 = Ok fs1 ->
  Contains (Stdin E) nl = false ->
  fst (main E st) = ReturnUserInput
  /\ fs (snd (main E st)) = fs1
  /\ nreq (snd (main E st)) = nreq (world (fetched E data (started st fs1)))
  /\ last (stdout (snd (main E st)))
     = Some (fmt.Println ["Failed to read user input:"; "EOF"]).
Proof.
  intros Hr Hu Hm Hin. unfold main. cbn [fs println print].
  rewrite Hr, Hu, Hm, (ReadString_without_delimiter _ _ Hin). cbn [fst snd].
  rewrite run_deferred_fs, run_deferred_nreq, run_deferred_stdout.
  cbn [fs nreq stdout println print].
  destruct (show_available_keeps_state
              (availableApps (fetched E data (started st fs1)))
              (world (fetched E data (started st fs1)))) as (Hfs & Hn & _).
  unfold fetched, started in *. cbn [fs println print set_fs] in *.
  rewrite Hfs, Hn, (proj1 (fetch_all_steps _ _ _)).
  do 3 (split; [done|]). apply last_snoc.
Qed.

Lemma input_without_newline_aborts_witness :
  fst (main (Examples.linux_env "yes" Examples.acme_http)
         (Examples.start (Examples.home_fs "acme/tool")))
  = ReturnUserInput
  /\ fs (snd (main (Examples.linux_env "yes" Examples.acme_http)
                (Examples.start (Examples.home_fs "acme/tool"))))
     = <["/home/u/.donut-utils" := Dir 493]> (Examples.home_fs "acme/tool").
Proof.
  destruct (input_without_newline_aborts
              (Examples.linux_env "yes" Examples.acme_http)
              (Examples.start (Examples.home_fs "acme/tool"))
              "acme/tool" "/home/u"
              (<["/home/u/.donut-utils" := Dir 493]> (Examples.home_fs "acme/tool"))
              eq_refl eq_refl eq_refl eq_refl) as (Hexit & Hfs & _).
  by split.
Defined.

Lemma lower_yes_letters (c : ascii) :
  (lower c = "y"%char -> c = "y"%char \/ c = "Y"%char)
  /\ (lower c = "e"%char -> c = "e"%char \/ c = "E"%char)
  /\ (lower c = "s"%char -> c = "s"%char \/ c = "S"%char).
Proof.
  destruct c as [[] [] [] [] [] [] [] []]; vm_compute;
    (split; [|split]); intros H; try discriminate; auto.
Qed.

(** X18.  The gate is open to every spelling of the word: ["yes"] in any
    mix of upper and lower case, with any white space before and after
    it, confirms. *)
Theorem any_case_yes_confirms (pre s post : string) :
  TrimSpace pre = "" ->
  TrimSpace post = "" ->
  ToLower s = "yes" ->
  confirmed (pre +:+ s +:+ post) = true.
Proof.
  intros Hpre Hpost Hs.
  apply TrimSpace_empty_blank in Hpre, Hpost.
  destruct s as [|c1 [|c2 [|c3 [|c4 s]]]]; try discriminate.
  cbn [ToLower] in Hs. injection Hs as H1 H2 H3.
  unfold confirmed, TrimSpace.
  rewrite (TrimLeftSpace_blank_app _ _ Hpre).
  assert (headSpace (String c1 (String c2 (String c3 "")) +:+ post) = false
          /\ ToLower (TrimRightSpace (String c1 (String c2 (String c3 "")))) = "yes")
    as [Hhead Hword].
  { destruct (proj1 (lower_yes_letters c1) H1) as [-> | ->],
             (proj1 (proj2 (lower_yes_letters c2)) H2) as [-> | ->],
             (proj2 (proj2 (lower_yes_letters c3)) H3) as [-> | ->];
      split; reflexivity. }
  rewrite (TrimLeftSpace_fixed _ Hhead).
  rewrite (TrimRightSpace_app _ _ (TrimRightSpace_blank _ Hpost)), Hword.
  reflexivity.
Qed.

Lemma any_case_yes_confirms_witness :
  confirmed ((String "009" (bytes2 194 160)) +:+ "yEs"
             +:+ (bytes3 227 128 128 +:+ String "013" nl)) = true.
Proof.
  apply any_case_yes_confirms; reflexivity.
Defined.
